(** * Land Truth Registry: the registry core and the timeline merge

    A shallow embedding of [backend/models.py], [backend/schemas.py] and the
    request handlers of [backend/main.py], with the properties of the
    registry proved over it.

    Conventions of the embedding.
    - Python [int] is [Z]; Python [float] is the binary64 [float] of the
      kernel, compared with [PrimFloat.leb] and [PrimFloat.ltb] (a NaN
      compares false with everything, as in Python).
    - Python [str] is [string], a sequence of characters of one byte each;
      [len] is [String.length].
    - A [datetime] is the instant it denotes, a [Z] (microseconds since the
      epoch); the ordering of datetimes is the ordering of these numbers.
    - A table is the list of its rows in insertion order, which is the order
      a query without ORDER BY returns them in.
    - [server_default=func.now()] is evaluated by the database when a row is
      inserted: the clock reading is an argument of the statement that
      inserts. Nothing is assumed about the readings. *)

From Stdlib Require Import ZArith List String Ascii Bool Lia Floats.
From Stdlib Require Import Sorting.Sorted Sorting.Permutation.
Import ListNotations.

Open Scope string_scope.
Open Scope list_scope.
Open Scope Z_scope.

(** ** Rows ([models.py]) *)

Module Asset.
Record t : Type := mk
  { id : Z
  ; name : string
  ; owner : string
  ; location_lat : float
  ; location_lon : float
  ; size_hectares : float
  ; created_at : Z }.
End Asset.

Module AssetVersion.
Record t : Type := mk
  { id : Z
  ; asset_id : Z
  ; name : string
  ; owner : string
  ; change_reason : string
  ; changed_at : Z }.
End AssetVersion.

Module Evidence.
Record t : Type := mk
  { id : Z
  ; asset_id : Z
  ; evidence_type : string
  ; description : string
  ; gps_lat : float
  ; gps_lon : float
  ; timestamp : Z }.
End Evidence.

(** ** Request bodies ([schemas.py]) *)

Module AssetCreate.
Record t : Type := mk
  { name : string
  ; owner : string
  ; location_lat : float
  ; location_lon : float
  ; size_hectares : float }.

(** The [Field] constraints of the schema: [min_length=1], [max_length=255]
    on both strings, [ge]/[le] on the coordinates, [gt=0] on the size. *)
Definition valid (a : t) : bool :=
  (1 <=? String.length (name a))%nat && (String.length (name a) <=? 255)%nat
  && (1 <=? String.length (owner a))%nat && (String.length (owner a) <=? 255)%nat
  && (-90 <=? location_lat a)%float && (location_lat a <=? 90)%float
  && (-180 <=? location_lon a)%float && (location_lon a <=? 180)%float
  && (0 <? size_hectares a)%float.
End AssetCreate.

Module EvidenceCreate.
Record t : Type := mk
  { asset_id : Z
  ; evidence_type : string
  ; description : string
  ; gps_lat : float
  ; gps_lon : float }.

(** [asset_id] has [gt=0]; [evidence_type] has [min_length=1] and
    [max_length=100]; [description] has [min_length=1] only. *)
Definition valid (e : t) : bool :=
  (0 <? asset_id e)
  && (1 <=? String.length (evidence_type e))%nat
  && (String.length (evidence_type e) <=? 100)%nat
  && (1 <=? String.length (description e))%nat
  && (-90 <=? gps_lat e)%float && (gps_lat e <=? 90)%float
  && (-180 <=? gps_lon e)%float && (gps_lon e <=? 180)%float.
End EvidenceCreate.

(** ** Timeline events ([schemas.py]) *)

(** The [details] dictionary has one of two shapes, by the keys the handler
    stores in it. *)
Inductive Details : Type :=
| VersionDetails (name owner : string) (version_id : Z)
| EvidenceDetails (evidence_type : string) (gps_lat gps_lon : float) (evidence_id : Z).

Module TimelineEvent.
Record t : Type := mk
  { event_type : string
  ; timestamp : Z
  ; description : string
  ; details : option Details }.
End TimelineEvent.

(** ** The store *)

Record DB : Type := mkDB
  { assets : list Asset.t
  ; asset_versions : list AssetVersion.t
  ; evidence : list Evidence.t }.

Definition empty_db : DB := mkDB [] [] [].

(** An integer primary key the insert does not give is assigned by the
    database: one more than the largest key of the table, 1 in an empty
    table. *)
Definition next_id (ids : list Z) : Z := 1 + fold_right Z.max 0 ids.

(** ** Outcomes *)

(** What a request can fail with: [ValidationError] is the 422 the framework
    answers when the body does not satisfy its schema, [NotFoundError] the
    404 the handlers raise, [StorageError] the 500 of a statement the
    database refuses. *)
Inductive Failure : Type :=
| ValidationError
| NotFoundError
| StorageError.

Inductive result (A : Type) : Type :=
| Ok (a : A)
| Err (e : Failure).
Arguments Ok {A} a.
Arguments Err {A} e.

(** ** Sessions and transactions *)

(** A session holds the rows as committed, which every other connection
    sees, and the rows as its open transaction sees them. *)
Record Session : Type := mkSession
  { committed : DB
  ; txn : DB }.

(** A handler is a computation over the session. Next to its outcome and the
    session it leaves, it yields the committed database as it stands after
    each statement that writes: what another connection could have observed
    while the handler ran. *)
Definition Tx (A : Type) : Type := Session -> result A * Session * list DB.

Definition ret {A : Type} (a : A) : Tx A := fun s => (Ok a, s, []).

Definition raise {A : Type} (e : Failure) : Tx A := fun s => (Err e, s, []).

Definition bind {A B : Type} (m : Tx A) (f : A -> Tx B) : Tx B :=
  fun s =>
    match m s with
    | (Ok a, s1, o1) =>
        match f a s1 with
        | (r, s2, o2) => (r, s2, o1 ++ o2)
        end
    | (Err e, s1, o1) => (Err e, s1, o1)
    end.

Declare Scope tx_scope.
Delimit Scope tx_scope with tx.
Notation "x <- m ;; k" := (bind m (fun x => k))
  (at level 61, m at next level, right associativity) : tx_scope.
Notation "m ;;; k" := (bind m (fun _ => k))
  (at level 61, right associativity) : tx_scope.

(** A statement that writes inside the transaction. *)
Definition write {A : Type} (f : DB -> A * DB) : Tx A :=
  fun s =>
    let (a, d) := f (txn s) in
    (Ok a, mkSession (committed s) d, [committed s]).

(** A query: it reads the rows the transaction sees. *)
Definition read {A : Type} (q : DB -> A) : Tx A :=
  fun s => (Ok (q (txn s)), s, []).

(** [db.commit()]: the transaction's rows become the committed rows. *)
Definition commit : Tx unit :=
  fun s => (Ok tt, mkSession (txn s) (txn s), [txn s]).

(** *** The engine *)

(** [database.py] is not among the sources, so the engine behind the session
    is a parameter of the model. The engines differ in the integers they
    take as parameters of a statement, and in what they make of a negative
    OFFSET or LIMIT. *)
Inductive Engine : Type :=
| SQLite
| PostgreSQL.

(** The integers of 64 bits, sign included. *)
Definition in_int64 (z : Z) : bool := (- 2 ^ 63 <=? z) && (z <? 2 ^ 63).

(** Whether the engine takes the integer as the key a lookup compares with.
    The driver of SQLite refuses to bind an integer outside 64 bits, and the
    statement is not run; PostgreSQL compares the key column with an integer
    of any size. *)
Definition binds_key (engine : Engine) (key : Z) : bool :=
  match engine with
  | SQLite => in_int64 key
  | PostgreSQL => true
  end.

(** *** Statements *)

(** [db.add(x)] and the flush that sends it: an INSERT inside the open
    transaction. The database gives the row its key and its timestamp; the
    object the handler holds is the row from then on. *)
Definition insert_Asset (now : Z) (name owner : string) (lat lon size : float)
  : Tx Asset.t :=
  write (fun d =>
    let row := Asset.mk (next_id (map Asset.id (assets d))) name owner lat lon size now in
    (row, mkDB (assets d ++ [row]) (asset_versions d) (evidence d))).

Definition insert_AssetVersion (now : Z) (asset_id : Z) (name owner change_reason : string)
  : Tx AssetVersion.t :=
  write (fun d =>
    let row := AssetVersion.mk (next_id (map AssetVersion.id (asset_versions d)))
                 asset_id name owner change_reason now in
    (row, mkDB (assets d) (asset_versions d ++ [row]) (evidence d))).

Definition insert_Evidence (now : Z) (asset_id : Z) (evidence_type description : string)
  (gps_lat gps_lon : float) : Tx Evidence.t :=
  write (fun d =>
    let row := Evidence.mk (next_id (map Evidence.id (evidence d)))
                 asset_id evidence_type description gps_lat gps_lon now in
    (row, mkDB (assets d) (asset_versions d) (evidence d ++ [row]))).

(** [.first()]: the first row of the result, [None] when there is none. *)
Definition first {A : Type} (rows : list A) : option A := hd_error rows.

(** [db.query(Asset).filter(Asset.id == asset_id).first()]. The keys of the
    stored rows are integers the engine holds: a key that a stored row
    carries is found. For a key that no row carries the lookup answers
    [None], unless the engine does not take the integer, which makes the
    statement fail. *)
Definition query_Asset_by_id (engine : Engine) (asset_id : Z) : Tx (option Asset.t) :=
  fun s =>
    match first (filter (fun a => Asset.id a =? asset_id) (assets (txn s))) with
    | Some a => (Ok (Some a), s, [])
    | None =>
        if binds_key engine asset_id then (Ok None, s, [])
        else (Err StorageError, s, [])
    end.

(** [db.query(AssetVersion).filter(AssetVersion.asset_id == asset_id).all()] *)
Definition query_versions_of (asset_id : Z) : Tx (list AssetVersion.t) :=
  read (fun d => filter (fun v => AssetVersion.asset_id v =? asset_id) (asset_versions d)).

(** [db.query(Evidence).filter(Evidence.asset_id == asset_id).all()] *)
Definition query_evidence_of (asset_id : Z) : Tx (list Evidence.t) :=
  read (fun d => filter (fun e => Evidence.asset_id e =? asset_id) (evidence d)).

(** [db.refresh(x)]: the row is read again by its primary key. *)
Definition refresh_Asset (x : Asset.t) : Tx Asset.t :=
  fun s =>
    match first (filter (fun a => Asset.id a =? Asset.id x) (assets (txn s))) with
    | Some row => (Ok row, s, [])
    | None => (Err StorageError, s, [])
    end.

Definition refresh_Evidence (x : Evidence.t) : Tx Evidence.t :=
  fun s =>
    match first (filter (fun e => Evidence.id e =? Evidence.id x) (evidence (txn s))) with
    | Some row => (Ok row, s, [])
    | None => (Err StorageError, s, [])
    end.

(** *** OFFSET and LIMIT *)

(** An offset or a limit outside 64 bits is refused by either engine: the
    driver of SQLite does not bind it, and PostgreSQL takes both as integers
    of 64 bits. Within 64 bits, for an offset and limit that are not
    negative the engines agree. For a negative one, SQLite reads a negative
    OFFSET as 0 and a negative LIMIT as no limit, and PostgreSQL refuses the
    statement. [None] is the refused statement. *)
Definition offset_limit {A : Type} (engine : Engine) (skip limit : Z) (rows : list A)
  : option (list A) :=
  if negb (in_int64 skip && in_int64 limit) then None
  else if (0 <=? skip) && (0 <=? limit) then
    Some (firstn (Z.to_nat limit) (skipn (Z.to_nat skip) rows))
  else
    match engine with
    | SQLite =>
        let rest := skipn (Z.to_nat skip) rows in
        Some (if limit <? 0 then rest else firstn (Z.to_nat limit) rest)
    | PostgreSQL => None
    end.

(** [db.query(T).offset(skip).limit(limit).all()] over the table [table]. *)
Definition query_page {A : Type} (engine : Engine) (table : DB -> list A) (skip limit : Z)
  : Tx (list A) :=
  fun s =>
    match offset_limit engine skip limit (table (txn s)) with
    | Some rows => (Ok rows, s, [])
    | None => (Err StorageError, s, [])
    end.

(** ** [list.sort(key=..., reverse=...)] *)

Section ListSort.
Context {A : Type} (key : A -> Z).

(** [x] goes before the first element whose key is not smaller. *)
Fixpoint insert_by (x : A) (l : list A) : list A :=
  match l with
  | [] => [x]
  | y :: l' => if key x <=? key y then x :: y :: l' else y :: insert_by x l'
  end.

(** A stable ascending sort. *)
Definition sort_ascending (l : list A) : list A := fold_right insert_by [] l.

(** With [reverse=True] the list is reversed, sorted ascending and reversed
    again, which is how the sort stays stable. *)
Definition list_sort (reverse : bool) (l : list A) : list A :=
  if reverse then rev (sort_ascending (rev l)) else sort_ascending l.
End ListSort.

(** ** The handlers ([main.py]) *)

(** [timeline.append(f x)] for each [x] of [xs]. *)
Definition append_each {A B : Type} (f : A -> B) (xs : list A) (timeline : list B) : list B :=
  fold_left (fun acc x => acc ++ [f x]) xs timeline.

Definition version_event (version : AssetVersion.t) : TimelineEvent.t :=
  TimelineEvent.mk
    "version"
    (AssetVersion.changed_at version)
    (AssetVersion.change_reason version)
    (Some (VersionDetails (AssetVersion.name version) (AssetVersion.owner version)
             (AssetVersion.id version))).

Definition evidence_event (evidence : Evidence.t) : TimelineEvent.t :=
  TimelineEvent.mk
    "evidence"
    (Evidence.timestamp evidence)
    (Evidence.evidence_type evidence ++ ": " ++ Evidence.description evidence)%string
    (Some (EvidenceDetails (Evidence.evidence_type evidence) (Evidence.gps_lat evidence)
             (Evidence.gps_lon evidence) (Evidence.id evidence))).

Definition create_asset (asset : AssetCreate.t) (now_asset now_version : Z) : Tx Asset.t :=
  (db_asset <- insert_Asset now_asset
                 (AssetCreate.name asset) (AssetCreate.owner asset)
                 (AssetCreate.location_lat asset) (AssetCreate.location_lon asset)
                 (AssetCreate.size_hectares asset) ;;
   genesis_version <- insert_AssetVersion now_version
                 (Asset.id db_asset) (AssetCreate.name asset) (AssetCreate.owner asset)
                 "Genesis Creation" ;;
   commit ;;;
   refresh_Asset db_asset)%tx.

Definition get_assets (engine : Engine) (skip limit : Z) : Tx (list Asset.t) :=
  query_page engine assets skip limit.

Definition get_asset (engine : Engine) (asset_id : Z) : Tx Asset.t :=
  (asset <- query_Asset_by_id engine asset_id ;;
   match asset with
   | None => raise NotFoundError
   | Some a => ret a
   end)%tx.

Definition create_evidence (engine : Engine) (evidence : EvidenceCreate.t) (now : Z)
  : Tx Evidence.t :=
  (asset <- query_Asset_by_id engine (EvidenceCreate.asset_id evidence) ;;
   match asset with
   | None => raise NotFoundError
   | Some _ =>
       db_evidence <- insert_Evidence now
                        (EvidenceCreate.asset_id evidence)
                        (EvidenceCreate.evidence_type evidence)
                        (EvidenceCreate.description evidence)
                        (EvidenceCreate.gps_lat evidence)
                        (EvidenceCreate.gps_lon evidence) ;;
       commit ;;;
       refresh_Evidence db_evidence
   end)%tx.

Definition get_asset_timeline (engine : Engine) (asset_id : Z)
  : Tx (list TimelineEvent.t) :=
  (asset <- query_Asset_by_id engine asset_id ;;
   match asset with
   | None => raise NotFoundError
   | Some _ =>
       versions <- query_versions_of asset_id ;;
       evidence_records <- query_evidence_of asset_id ;;
       let timeline := [] in
       let timeline := append_each version_event versions timeline in
       let timeline := append_each evidence_event evidence_records timeline in
       ret (list_sort TimelineEvent.timestamp true timeline)
   end)%tx.

Definition get_all_evidence (engine : Engine) (skip limit : Z) : Tx (list Evidence.t) :=
  query_page engine evidence skip limit.

(** ** The routes *)

(** Modelled from the spec: [get_db] of [database.py], which is not among the
    sources. "One handle per request, scoped acquisition with guaranteed
    release on all exit paths": a request runs its handler in a session
    opened on the committed database, and what the handler left uncommitted
    is dropped when the session is released. *)
Definition request {A : Type} (handler : Tx A) (d : DB) : result A * DB * list DB :=
  match handler (mkSession d d) with
  | (r, s, observed) => (r, committed s, observed)
  end.

(** A route with a body: the framework checks the body against its schema
    and answers 422 without entering the handler when it fails. *)
Definition POST_assets (asset : AssetCreate.t) (now_asset now_version : Z) (d : DB)
  : result Asset.t * DB * list DB :=
  if AssetCreate.valid asset then request (create_asset asset now_asset now_version) d
  else (Err ValidationError, d, []).

Definition GET_assets (engine : Engine) (skip limit : Z) (d : DB)
  : result (list Asset.t) * DB * list DB :=
  request (get_assets engine skip limit) d.

Definition GET_asset (engine : Engine) (asset_id : Z) (d : DB)
  : result Asset.t * DB * list DB :=
  request (get_asset engine asset_id) d.

Definition POST_evidence (engine : Engine) (evidence : EvidenceCreate.t) (now : Z) (d : DB)
  : result Evidence.t * DB * list DB :=
  if EvidenceCreate.valid evidence then request (create_evidence engine evidence now) d
  else (Err ValidationError, d, []).

Definition GET_asset_timeline (engine : Engine) (asset_id : Z) (d : DB)
  : result (list TimelineEvent.t) * DB * list DB :=
  request (get_asset_timeline engine asset_id) d.

Definition GET_evidence (engine : Engine) (skip limit : Z) (d : DB)
  : result (list Evidence.t) * DB * list DB :=
  request (get_all_evidence engine skip limit) d.

Definition outcome {A : Type} (x : result A * DB * list DB) : result A := fst (fst x).
Definition db_after {A : Type} (x : result A * DB * list DB) : DB := snd (fst x).
Definition observed {A : Type} (x : result A * DB * list DB) : list DB := snd x.

(** ** Sequences of requests *)

Inductive Op : Type :=
| OpCreateAsset (asset : AssetCreate.t) (now_asset now_version : Z)
| OpListAssets (skip limit : Z)
| OpGetAsset (asset_id : Z)
| OpLogEvidence (evidence : EvidenceCreate.t) (now : Z)
| OpGetTimeline (asset_id : Z)
| OpListEvidence (skip limit : Z).

Definition step (engine : Engine) (d : DB) (op : Op) : DB :=
  match op with
  | OpCreateAsset asset t1 t2 => db_after (POST_assets asset t1 t2 d)
  | OpListAssets skip limit => db_after (GET_assets engine skip limit d)
  | OpGetAsset asset_id => db_after (GET_asset engine asset_id d)
  | OpLogEvidence evidence now => db_after (POST_evidence engine evidence now d)
  | OpGetTimeline asset_id => db_after (GET_asset_timeline engine asset_id d)
  | OpListEvidence skip limit => db_after (GET_evidence engine skip limit d)
  end.

Definition run (engine : Engine) (ops : list Op) (d : DB) : DB :=
  fold_left (step engine) ops d.

(** ** The end-to-end scenario *)

Definition plot_a : AssetCreate.t :=
  AssetCreate.mk "Plot A" "Owner X" (-17.75)%float 31%float 5%float.

Definition fence_built : EvidenceCreate.t :=
  EvidenceCreate.mk 1 "Photo" "fence built" (-17.75)%float 31%float.

Definition scenario_db : DB :=
  run SQLite [OpCreateAsset plot_a 100 100; OpLogEvidence fence_built 200] empty_db.

(** ** Vocabulary of the statements *)

(** Whether an asset with the key [asset_id] is stored. *)
Definition asset_exists (asset_id : Z) (d : DB) : Prop :=
  exists a, In a (assets d) /\ Asset.id a = asset_id.

(** The asset row [create_asset] stores for a body, and its genesis version. *)
Definition new_asset (asset : AssetCreate.t) (now : Z) (d : DB) : Asset.t :=
  Asset.mk (next_id (map Asset.id (assets d)))
    (AssetCreate.name asset) (AssetCreate.owner asset)
    (AssetCreate.location_lat asset) (AssetCreate.location_lon asset)
    (AssetCreate.size_hectares asset) now.

Definition genesis_of (asset : AssetCreate.t) (now : Z) (d : DB) : AssetVersion.t :=
  AssetVersion.mk (next_id (map AssetVersion.id (asset_versions d)))
    (next_id (map Asset.id (assets d)))
    (AssetCreate.name asset) (AssetCreate.owner asset) "Genesis Creation" now.

(** The evidence row [create_evidence] stores for a body. *)
Definition new_evidence (body : EvidenceCreate.t) (now : Z) (d : DB) : Evidence.t :=
  Evidence.mk (next_id (map Evidence.id (evidence d)))
    (EvidenceCreate.asset_id body) (EvidenceCreate.evidence_type body)
    (EvidenceCreate.description body)
    (EvidenceCreate.gps_lat body) (EvidenceCreate.gps_lon body) now.

(** A latitude, a longitude within the bounds of the schemas. *)
Definition latitude_in_range (x : float) : bool := ((-90 <=? x) && (x <=? 90))%float.
Definition longitude_in_range (x : float) : bool := ((-180 <=? x) && (x <=? 180))%float.

(** A name of 256 characters, and a body that carries it. *)
Definition long_name : string := string_of_list_ascii (repeat "a"%char 256).

Definition long_named_plot : AssetCreate.t :=
  AssetCreate.mk long_name "Owner X" (-17.75)%float 31%float 5%float.

(** Bodies the schemas refuse. *)
Definition plot_too_far_north : AssetCreate.t :=
  AssetCreate.mk "Plot A" "Owner X" 91%float 31%float 5%float.

Definition evidence_for_asset_zero : EvidenceCreate.t :=
  EvidenceCreate.mk 0 "Photo" "fence built" (-17.75)%float 31%float.

Definition evidence_for_asset_99999 : EvidenceCreate.t :=
  EvidenceCreate.mk 99999 "Photo" "fence built" (-17.75)%float 31%float.

(** Evidence for the key 2^63, the first integer above those of 64 bits. *)
Definition evidence_for_asset_beyond : EvidenceCreate.t :=
  EvidenceCreate.mk (2 ^ 63) "Photo" "fence built" (-17.75)%float 31%float.

(** The rows of one asset, in storage order. *)
Definition versions_of (asset_id : Z) (d : DB) : list AssetVersion.t :=
  filter (fun v => AssetVersion.asset_id v =? asset_id) (asset_versions d).

Definition evidence_of (asset_id : Z) (d : DB) : list Evidence.t :=
  filter (fun e => Evidence.asset_id e =? asset_id) (evidence d).

(** Most recent first. *)
Definition newest_first (timeline : list TimelineEvent.t) : Prop :=
  StronglySorted
    (fun e1 e2 => TimelineEvent.timestamp e2 <= TimelineEvent.timestamp e1) timeline.

(** The events of a timeline that carry the timestamp [t], in their order. *)
Definition events_at (t : Z) (timeline : list TimelineEvent.t) : list TimelineEvent.t :=
  filter (fun e => TimelineEvent.timestamp e =? t) timeline.

(** A second piece of evidence, and a database in which the genesis version
    and two pieces of evidence of asset 1 carry one timestamp. *)
Definition survey_done : EvidenceCreate.t :=
  EvidenceCreate.mk 1 "Survey" "land survey" (-17.75)%float 31%float.

Definition tied_db : DB :=
  run SQLite
    [OpCreateAsset plot_a 100 100; OpLogEvidence fence_built 100; OpLogEvidence survey_done 100]
    empty_db.

(** The databases a sequence of requests leads to from the empty one have
    these properties: the keys of the assets grow along the table, every
    version belongs to a stored asset, and no two versions belong to one
    asset. *)
Record well_formed (d : DB) : Prop := mk_well_formed
  { asset_ids_grow : StronglySorted Z.lt (map Asset.id (assets d))
  ; versions_have_asset :
      forall v, In v (asset_versions d) -> asset_exists (AssetVersion.asset_id v) d
  ; one_version_per_asset : NoDup (map AssetVersion.asset_id (asset_versions d)) }.

(** ** Query parameters and their defaults *)

(** A query parameter the request leaves out takes the default of the
    handler's signature: [skip: int = 0], [limit: int = 100]. *)
Definition or_default (default : Z) (given : option Z) : Z :=
  match given with
  | Some value => value
  | None => default
  end.

Definition GET_assets_query (engine : Engine) (skip limit : option Z) (d : DB)
  : result (list Asset.t) * DB * list DB :=
  GET_assets engine (or_default 0 skip) (or_default 100 limit) d.

Definition GET_evidence_query (engine : Engine) (skip limit : option Z) (d : DB)
  : result (list Evidence.t) * DB * list DB :=
  GET_evidence engine (or_default 0 skip) (or_default 100 limit) d.

(** ** What a request answers *)

(** The body of a response is rendered as JSON, which has no notation for an
    infinite number or for a NaN: a body that holds one is not rendered, and
    the request is answered 500 although its handler has returned. *)
Definition json_number (x : float) : bool := is_finite x.

Definition renders_Asset (a : Asset.t) : bool :=
  json_number (Asset.location_lat a) && json_number (Asset.location_lon a)
  && json_number (Asset.size_hectares a).

Definition renders_Evidence (e : Evidence.t) : bool :=
  json_number (Evidence.gps_lat e) && json_number (Evidence.gps_lon e).

Definition renders_TimelineEvent (e : TimelineEvent.t) : bool :=
  match TimelineEvent.details e with
  | Some (EvidenceDetails _ gps_lat gps_lon _) => json_number gps_lat && json_number gps_lon
  | _ => true
  end.

(** The response to a body the schema refuses quotes the value of each
    field that failed: it is rendered when the numbers among these are
    finite. A coordinate that is not finite fails its range; a size that is
    not finite fails unless it is above 0. *)
Definition refusal_renders_AssetCreate (a : AssetCreate.t) : bool :=
  json_number (AssetCreate.location_lat a) && json_number (AssetCreate.location_lon a)
  && (json_number (AssetCreate.size_hectares a) || (0 <? AssetCreate.size_hectares a)%float).

Definition refusal_renders_EvidenceCreate (e : EvidenceCreate.t) : bool :=
  json_number (EvidenceCreate.gps_lat e) && json_number (EvidenceCreate.gps_lon e).

(** The status of the response to a failure: 422 for the body the schema
    refuses, 404 for the asset that is not stored, 500 for the statement
    the engine refuses. *)
Definition status_of (e : Failure) : Z :=
  match e with
  | ValidationError => 422
  | NotFoundError => 404
  | StorageError => 500
  end.

(** The status of a response: [success] when the handler returned and its
    body is rendered, the status of the failure when it did not, and 500
    when what is to be sent is not rendered. *)
Definition answer {A : Type} (success : Z) (renders : A -> bool) (refusal_renders : bool)
  (x : result A * DB * list DB) : Z :=
  match outcome x with
  | Ok body => if renders body then success else 500
  | Err ValidationError => if refusal_renders then 422 else 500
  | Err e => status_of e
  end.

(** The status of the response to a request: 201 for a creation and 200 for
    a reading. *)
Definition http_status (engine : Engine) (d : DB) (op : Op) : Z :=
  match op with
  | OpCreateAsset asset t1 t2 =>
      answer 201 renders_Asset (refusal_renders_AssetCreate asset) (POST_assets asset t1 t2 d)
  | OpListAssets skip limit =>
      answer 200 (forallb renders_Asset) true (GET_assets engine skip limit d)
  | OpGetAsset asset_id => answer 200 renders_Asset true (GET_asset engine asset_id d)
  | OpLogEvidence body now =>
      answer 201 renders_Evidence (refusal_renders_EvidenceCreate body)
        (POST_evidence engine body now d)
  | OpGetTimeline asset_id =>
      answer 200 (forallb renders_TimelineEvent) true (GET_asset_timeline engine asset_id d)
  | OpListEvidence skip limit =>
      answer 200 (forallb renders_Evidence) true (GET_evidence engine skip limit d)
  end.

(** A body with an infinite size: the schema asks for a size above 0, which
    infinity is. *)
Definition boundless_plot : AssetCreate.t :=
  AssetCreate.mk "Plot A" "Owner X" (-17.75)%float 31%float infinity.

(** A body whose latitude is not a number. *)
Definition plot_nowhere : AssetCreate.t :=
  AssetCreate.mk "Plot A" "Owner X" nan 31%float 5%float.

(** Whether an asset with the key is stored, as a test. *)
Definition has_asset (asset_id : Z) (d : DB) : bool :=
  existsb (fun a => Asset.id a =? asset_id) (assets d).

(** ** The registry after a sequence of requests *)

(** The keys 1, 2, ..., n. *)
Definition keys_1_to (n : nat) : list Z := map Z.of_nat (seq 1 n).

(** [v] is the genesis version of [a]. *)
Definition genesis_for (a : Asset.t) (v : AssetVersion.t) : Prop :=
  AssetVersion.asset_id v = Asset.id a
  /\ AssetVersion.name v = Asset.name a
  /\ AssetVersion.owner v = Asset.owner a
  /\ AssetVersion.change_reason v = "Genesis Creation".

(** A stored row meets the constraints of the schema it came in by. *)
Definition stored_asset_valid (a : Asset.t) : Prop :=
  AssetCreate.valid
    (AssetCreate.mk (Asset.name a) (Asset.owner a) (Asset.location_lat a)
       (Asset.location_lon a) (Asset.size_hectares a)) = true.

Definition stored_evidence_valid (e : Evidence.t) : Prop :=
  EvidenceCreate.valid
    (EvidenceCreate.mk (Evidence.asset_id e) (Evidence.evidence_type e)
       (Evidence.description e) (Evidence.gps_lat e) (Evidence.gps_lon e)) = true.

Record registry_invariant (d : DB) : Prop := mk_registry_invariant
  { asset_keys : map Asset.id (assets d) = keys_1_to (List.length (assets d))
  ; version_keys :
      map AssetVersion.id (asset_versions d) = keys_1_to (List.length (asset_versions d))
  ; evidence_keys : map Evidence.id (evidence d) = keys_1_to (List.length (evidence d))
  ; genesis_pairs : Forall2 genesis_for (assets d) (asset_versions d)
  ; evidence_has_asset :
      Forall (fun e => asset_exists (Evidence.asset_id e) d) (evidence d)
  ; assets_valid : Forall stored_asset_valid (assets d)
  ; evidence_valid : Forall stored_evidence_valid (evidence d) }.

(** The events of a timeline of one kind. *)
Definition events_of_type (kind : string) (timeline : list TimelineEvent.t)
  : list TimelineEvent.t :=
  filter (fun e => String.eqb (TimelineEvent.event_type e) kind) timeline.

(** ** The seed script ([seed_data.py]) *)

Module seed_data.

Definition MAX_RETRIES : nat := 30.
Definition RETRY_DELAY : Z := 2.

(** The loop of [wait_for_api] over the attempts left. [probe attempt] is
    what the GET of that attempt meets: [None] when it raises
    [RequestException], the status code otherwise. The second component is
    the time slept, in seconds. *)
Fixpoint wait_attempts (probe : nat -> option Z) (attempts : list nat) (slept : Z)
  : bool * Z :=
  match attempts with
  | [] => (false, slept)
  | attempt :: rest =>
      match probe attempt with
      | Some status_code =>
          if status_code =? 200 then (true, slept)
          else wait_attempts probe rest (slept + RETRY_DELAY)
      | None => wait_attempts probe rest (slept + RETRY_DELAY)
      end
  end.

Definition wait_for_api (probe : nat -> option Z) : bool * Z :=
  wait_attempts probe (seq 0 MAX_RETRIES) 0.

(** The script talks to the server: the state is the database of the server
    and the number of readings its clock has given, [now] being the reading
    by its number and [engine] the engine of the server. A response with a
    failure status, the 500 of a body that is not rendered among them, makes
    [raise_for_status] raise, which ends the script. *)
Definition Script (A : Type) : Type := DB * nat -> result A * (DB * nat).

Definition and_then {A B : Type} (m : Script A) (f : A -> Script B) : Script B :=
  fun s =>
    match m s with
    | (Ok a, s') => f a s'
    | (Err e, s') => (Err e, s')
    end.

Definition create_asset (now : nat -> Z) (name owner : string) (lat lon size : float)
  : Script Z :=
  fun s =>
    let payload := AssetCreate.mk name owner lat lon size in
    let response := POST_assets payload (now (snd s)) (now (S (snd s))) (fst s) in
    match outcome response with
    | Ok asset =>
        if renders_Asset asset then (Ok (Asset.id asset), (db_after response, S (S (snd s))))
        else (Err StorageError, (db_after response, S (S (snd s))))
    | Err e => (Err e, (db_after response, snd s))
    end.

Definition log_evidence (engine : Engine) (now : nat -> Z) (asset_id : Z)
  (evidence_type description : string) (lat lon : float) : Script Z :=
  fun s =>
    let payload := EvidenceCreate.mk asset_id evidence_type description lat lon in
    let response := POST_evidence engine payload (now (snd s)) (fst s) in
    match outcome response with
    | Ok evidence =>
        if renders_Evidence evidence
        then (Ok (Evidence.id evidence), (db_after response, S (snd s)))
        else (Err StorageError, (db_after response, S (snd s)))
    | Err e => (Err e, (db_after response, snd s))
    end.

#[warnings="-inexact-float"]
Definition seed_data (engine : Engine) (now : nat -> Z) : Script unit :=
  and_then (create_asset now "Mashonaland Plot 4" "Tendai Moyo"
              (-17.8252)%float 31.0335%float 12.5%float) (fun asset1_id =>
  and_then (log_evidence engine now asset1_id "Photo"
              "Boundary fencing completed - northern perimeter"
              (-17.8250)%float 31.0330%float) (fun _ =>
  and_then (log_evidence engine now asset1_id "Survey"
              "Land survey conducted by Zimbabwe Surveyor General"
              (-17.8252)%float 31.0335%float) (fun _ =>
  and_then (log_evidence engine now asset1_id "Document"
              "Title deed registration confirmed at Deeds Office"
              (-17.8252)%float 31.0335%float) (fun _ =>
  and_then (log_evidence engine now asset1_id "Inspection"
              "Soil quality assessment - Grade A agricultural land"
              (-17.8255)%float 31.0340%float) (fun _ =>
  and_then (create_asset now "Harare Warehouse District"
              "Zimbabwe Commercial Properties Ltd"
              (-17.8292)%float 31.0522%float 3.2%float) (fun asset2_id =>
  and_then (log_evidence engine now asset2_id "Photo"
              "Warehouse construction phase 1 completed"
              (-17.8292)%float 31.0522%float) (fun _ =>
  and_then (log_evidence engine now asset2_id "Document"
              "Building permit approved by Harare City Council"
              (-17.8292)%float 31.0522%float) (fun _ =>
  and_then (log_evidence engine now asset2_id "Inspection"
              "Fire safety inspection passed - Certificate issued"
              (-17.8290)%float 31.0520%float) (fun _ =>
  and_then (create_asset now "Manicaland Orchard Estate" "Nyasha Chikwanha"
              (-18.9707)%float 32.6729%float 25.8%float) (fun asset3_id =>
  and_then (log_evidence engine now asset3_id "Photo"
              "Citrus orchard planting - 500 trees planted"
              (-18.9705)%float 32.6725%float) (fun _ =>
  and_then (log_evidence engine now asset3_id "Harvest Report"
              "First harvest yield: 12 tonnes of oranges"
              (-18.9707)%float 32.6729%float) (fun _ =>
  and_then (log_evidence engine now asset3_id "Survey"
              "Irrigation system installation completed"
              (-18.9710)%float 32.6730%float) (fun _ =>
  and_then (log_evidence engine now asset3_id "Document"
              "Organic certification awarded by Zimbabwe Organic Producers"
              (-18.9707)%float 32.6729%float) (fun _ =>
  fun s => (Ok tt, s))))))))))))))).

(** The script as run from the command line: its exit code and the database
    it leaves. It waits for the server, then seeds; it exits with 1 when the
    server did not answer or a request of the seeding failed. *)
Definition main (engine : Engine) (probe : nat -> option Z) (now : nat -> Z) (d : DB)
  : Z * DB :=
  if fst (wait_for_api probe) then
    match seed_data engine now (d, 0%nat) with
    | (Ok _, (d', _)) => (0, d')
    | (Err _, (d', _)) => (1, d')
    end
  else (1, d).

End seed_data.

(** * Properties *)

Example scenario_timeline :
  outcome (GET_asset_timeline SQLite 1 scenario_db)
  = Ok [ TimelineEvent.mk "evidence" 200 "Photo: fence built"
           (Some (EvidenceDetails "Photo" (-17.75)%float 31%float 1))
       ; TimelineEvent.mk "version" 100 "Genesis Creation"
           (Some (VersionDetails "Plot A" "Owner X" 1)) ].
Proof. vm_compute. reflexivity. Qed.

(** ** Keys and lookups *)

Lemma fold_max_ge (ids : list Z) (x : Z) :
  In x ids -> x <= fold_right Z.max 0 ids.
Proof.
  induction ids as [|y ids IH]; simpl; [tauto|].
  intros [->|Hin]; [lia|]. specialize (IH Hin). lia.
Qed.

Lemma next_id_above (ids : list Z) (x : Z) : In x ids -> x < next_id ids.
Proof. intros Hin. apply fold_max_ge in Hin. unfold next_id. lia. Qed.

Lemma next_id_positive (ids : list Z) : 0 < next_id ids.
Proof.
  unfold next_id. assert (0 <= fold_right Z.max 0 ids); [|lia].
  induction ids; simpl; lia.
Qed.

Lemma next_id_fresh (ids : list Z) : ~ In (next_id ids) ids.
Proof. intros Hin. apply next_id_above in Hin. lia. Qed.

Lemma first_filter_none {A : Type} (p : A -> bool) (rows : list A) :
  (forall r, In r rows -> p r = false) -> first (filter p rows) = None.
Proof.
  induction rows as [|r rows IH]; simpl; intros H; [reflexivity|].
  rewrite (H r) by auto. apply IH. auto.
Qed.

Lemma first_filter_some {A : Type} (p : A -> bool) (rows : list A) (r : A) :
  In r rows -> p r = true -> exists r', first (filter p rows) = Some r'.
Proof.
  induction rows as [|x rows IH]; simpl; [tauto|].
  intros Hin Hp. destruct (p x) eqn:Hx; simpl; [eauto|].
  destruct Hin as [->|Hin]; [congruence|]. auto.
Qed.

(** The row just inserted is the one its key finds. *)
Lemma first_filter_last {A : Type} (p : A -> bool) (rows : list A) (x : A) :
  (forall r, In r rows -> p r = false) -> p x = true ->
  first (filter p (rows ++ [x])) = Some x.
Proof.
  intros Hrows Hx. rewrite filter_app. simpl. rewrite Hx.
  induction rows as [|r rows IH]; simpl; [reflexivity|].
  rewrite (Hrows r) by (simpl; auto). apply IH. intros; apply Hrows; simpl; auto.
Qed.

Lemma id_not_next (ids : list Z) (x : Z) : In x ids -> (x =? next_id ids) = false.
Proof. intros Hin. apply next_id_above in Hin. apply Z.eqb_neq. lia. Qed.


Lemma lookup_missing (asset_id : Z) (d : DB) :
  ~ asset_exists asset_id d ->
  first (filter (fun a => Asset.id a =? asset_id) (assets d)) = None.
Proof.
  intros H. apply first_filter_none. intros r Hr. apply Z.eqb_neq.
  intros Heq. apply H. exists r. auto.
Qed.

Lemma lookup_present (asset_id : Z) (d : DB) :
  asset_exists asset_id d ->
  exists a, first (filter (fun a => Asset.id a =? asset_id) (assets d)) = Some a.
Proof.
  intros (a & Hin & Hid). apply (first_filter_some _ _ a Hin). now apply Z.eqb_eq.
Qed.

(** ** Creating an asset *)


Lemma create_asset_runs (asset : AssetCreate.t) (t1 t2 : Z) (d : DB) :
  let a := new_asset asset t1 d in
  let v := genesis_of asset t2 d in
  let d' := mkDB (assets d ++ [a]) (asset_versions d ++ [v]) (evidence d) in
  request (create_asset asset t1 t2) d = (Ok a, d', [d; d; d']).
Proof.
  intros a v d'. unfold request, create_asset, bind, insert_Asset, insert_AssetVersion,
    write, commit, refresh_Asset. cbn [txn committed assets asset_versions evidence Asset.id].
  fold a. fold v. fold d'.
  rewrite first_filter_last.
  - reflexivity.
  - intros r Hr. apply id_not_next. now apply in_map.
  - apply Z.eqb_refl.
Qed.

Lemma asset_exists_empty (asset_id : Z) : ~ asset_exists asset_id empty_db.
Proof. intros (a & Hin & _). exact Hin. Qed.

Lemma new_asset_fresh (asset : AssetCreate.t) (now : Z) (d : DB) :
  ~ asset_exists (Asset.id (new_asset asset now d)) d.
Proof.
  intros (a & Hin & Hid). simpl in Hid.
  apply (next_id_fresh (map Asset.id (assets d))). rewrite <- Hid. now apply in_map.
Qed.

(** C1, as the code has it. For every body that satisfies the schema (name
    and owner of 1 to 255 characters, latitude in [-90,90], longitude in
    [-180,180], size above 0), [create_asset] appends exactly one Asset row
    and exactly one AssetVersion row, the latter with change_reason
    "Genesis Creation", the key of the former as its asset_id and the name
    and owner of the body; the evidence table is untouched. Another
    connection sees the database as it was before after each of the two
    inserts, and with both rows after the commit: never one row without the
    other. The request returns the stored asset, with a key no stored asset
    had and the clock reading of its insert as created_at. *)
Theorem create_asset_genesis_atomic (asset : AssetCreate.t) (t1 t2 : Z) (d : DB) :
  AssetCreate.valid asset = true ->
  let a := new_asset asset t1 d in
  let v := genesis_of asset t2 d in
  let d' := mkDB (assets d ++ [a]) (asset_versions d ++ [v]) (evidence d) in
  POST_assets asset t1 t2 d = (Ok a, d', [d; d; d'])
  /\ AssetVersion.asset_id v = Asset.id a
  /\ AssetVersion.change_reason v = "Genesis Creation"
  /\ Asset.name a = AssetCreate.name asset /\ Asset.owner a = AssetCreate.owner asset
  /\ AssetVersion.name v = AssetCreate.name asset
  /\ AssetVersion.owner v = AssetCreate.owner asset
  /\ Asset.created_at a = t1
  /\ ~ asset_exists (Asset.id a) d.
Proof.
  intros Hvalid a v d'. unfold POST_assets. rewrite Hvalid.
  split; [apply create_asset_runs|].
  repeat split; try reflexivity. apply new_asset_fresh.
Qed.

Lemma create_asset_genesis_atomic_witness :
  AssetCreate.valid plot_a = true
  /\ POST_assets plot_a 100 101 empty_db
     = (Ok (Asset.mk 1 "Plot A" "Owner X" (-17.75)%float 31%float 5%float 100),
        mkDB [Asset.mk 1 "Plot A" "Owner X" (-17.75)%float 31%float 5%float 100]
             [AssetVersion.mk 1 1 "Plot A" "Owner X" "Genesis Creation" 101] [],
        [empty_db; empty_db;
         mkDB [Asset.mk 1 "Plot A" "Owner X" (-17.75)%float 31%float 5%float 100]
              [AssetVersion.mk 1 1 "Plot A" "Owner X" "Genesis Creation" 101] []]).
Proof.
  split; [vm_compute; reflexivity|].
  apply (create_asset_genesis_atomic plot_a 100 101 empty_db). vm_compute. reflexivity.
Defined.

(** C1, as stated, fails: a body with a name of 256 characters has a
    non-empty name and owner, coordinates in range and a size above 0, and
    the request is refused with nothing stored. *)
Lemma create_asset_long_name_refused :
  AssetCreate.name long_named_plot <> ""
  /\ AssetCreate.owner long_named_plot <> ""
  /\ latitude_in_range (AssetCreate.location_lat long_named_plot) = true
  /\ longitude_in_range (AssetCreate.location_lon long_named_plot) = true
  /\ (0 <? AssetCreate.size_hectares long_named_plot)%float = true
  /\ POST_assets long_named_plot 100 101 empty_db = (Err ValidationError, empty_db, []).
Proof.
  repeat split; try (vm_compute; reflexivity); vm_compute; discriminate.
Qed.

Ltac refuse :=
  repeat first [rewrite andb_false_r | rewrite andb_false_l | progress simpl];
  try reflexivity.

(** C3. A body with an empty name or owner, a latitude outside [-90,90], a
    longitude outside [-180,180] or a size that is not above 0 is refused
    with ValidationError; the database is the one before the request, and no
    statement was sent. *)
Theorem create_asset_invalid_refused (asset : AssetCreate.t) (t1 t2 : Z) (d : DB) :
  AssetCreate.name asset = ""
  \/ AssetCreate.owner asset = ""
  \/ latitude_in_range (AssetCreate.location_lat asset) = false
  \/ longitude_in_range (AssetCreate.location_lon asset) = false
  \/ (0 <? AssetCreate.size_hectares asset)%float = false ->
  POST_assets asset t1 t2 d = (Err ValidationError, d, []).
Proof.
  intros H. unfold POST_assets.
  assert (Hv : AssetCreate.valid asset = false); [|now rewrite Hv].
  unfold AssetCreate.valid, latitude_in_range, longitude_in_range in *.
  destruct H as [H|[H|[H|[H|H]]]].
  - rewrite H. reflexivity.
  - rewrite H. refuse.
  - apply andb_false_iff in H. destruct H as [H|H]; rewrite H; refuse.
  - apply andb_false_iff in H. destruct H as [H|H]; rewrite H; refuse.
  - rewrite H. refuse.
Qed.

Lemma create_asset_invalid_refused_witness :
  latitude_in_range (AssetCreate.location_lat plot_too_far_north) = false
  /\ POST_assets plot_too_far_north 100 101 empty_db = (Err ValidationError, empty_db, []).
Proof.
  split; [vm_compute; reflexivity|].
  apply (create_asset_invalid_refused plot_too_far_north 100 101 empty_db).
  right. right. left. vm_compute. reflexivity.
Defined.

(** ** Logging evidence *)

Lemma in_int64_binds (engine : Engine) (key : Z) :
  in_int64 key = true -> binds_key engine key = true.
Proof. intros H. destruct engine; [exact H|reflexivity]. Qed.

Lemma create_evidence_missing (engine : Engine) (evidence : EvidenceCreate.t) (now : Z) (d : DB) :
  ~ asset_exists (EvidenceCreate.asset_id evidence) d ->
  request (create_evidence engine evidence now) d
  = (Err (if binds_key engine (EvidenceCreate.asset_id evidence) then NotFoundError
          else StorageError), d, []).
Proof.
  intros H. unfold request, create_evidence, bind, query_Asset_by_id. cbn [txn].
  rewrite (lookup_missing _ _ H).
  destruct (binds_key engine (EvidenceCreate.asset_id evidence)); reflexivity.
Qed.

Lemma create_evidence_runs (engine : Engine) (body : EvidenceCreate.t) (now : Z) (d : DB) :
  asset_exists (EvidenceCreate.asset_id body) d ->
  let row := new_evidence body now d in
  let d' := mkDB (assets d) (asset_versions d) (evidence d ++ [row]) in
  request (create_evidence engine body now) d = (Ok row, d', [d; d']).
Proof.
  intros H row d'. unfold request, create_evidence, bind, query_Asset_by_id. cbn [txn].
  destruct (lookup_present _ _ H) as (a & ->).
  unfold insert_Evidence, write, commit, refresh_Evidence.
  cbn [txn committed assets asset_versions evidence Evidence.id].
  fold (new_evidence body now d). fold row. fold d'.
  rewrite first_filter_last.
  - reflexivity.
  - intros r Hr. apply id_not_next. now apply in_map.
  - apply Z.eqb_refl.
Qed.

(** C4, as the code has it. When no asset has the key the body names, the
    request fails and the database is the one before the request, with no
    statement that writes sent. For a key within 64 bits the failure is
    NotFoundError for a body that satisfies the schema and ValidationError
    for one that does not. *)
Theorem log_evidence_missing_asset
  (engine : Engine) (evidence : EvidenceCreate.t) (now : Z) (d : DB) :
  ~ asset_exists (EvidenceCreate.asset_id evidence) d ->
  (exists e, POST_evidence engine evidence now d = (Err e, d, []))
  /\ (in_int64 (EvidenceCreate.asset_id evidence) = true ->
      POST_evidence engine evidence now d
      = (Err (if EvidenceCreate.valid evidence then NotFoundError else ValidationError),
         d, [])).
Proof.
  intros H. unfold POST_evidence.
  destruct (EvidenceCreate.valid evidence).
  - rewrite (create_evidence_missing engine _ now _ H). split; [eauto|].
    intros Hrange. now rewrite (in_int64_binds engine _ Hrange).
  - split; [eauto|reflexivity].
Qed.

Lemma log_evidence_missing_asset_witness :
  ~ asset_exists 99999 empty_db
  /\ POST_evidence SQLite evidence_for_asset_99999 200 empty_db
     = (Err NotFoundError, empty_db, []).
Proof.
  split; [apply asset_exists_empty|].
  apply (log_evidence_missing_asset SQLite evidence_for_asset_99999 200 empty_db).
  - apply asset_exists_empty.
  - reflexivity.
Defined.

(** C4, as stated, fails: no asset has the key 0 in the empty database, and
    evidence logged for it fails with ValidationError, not NotFoundError. *)
Lemma log_evidence_asset_zero_validation :
  ~ asset_exists (EvidenceCreate.asset_id evidence_for_asset_zero) empty_db
  /\ outcome (POST_evidence SQLite evidence_for_asset_zero 200 empty_db) = Err ValidationError
  /\ outcome (POST_evidence SQLite evidence_for_asset_zero 200 empty_db) <> Err NotFoundError.
Proof.
  split; [apply asset_exists_empty|].
  split; vm_compute; [reflexivity|discriminate].
Qed.

(** On SQLite, evidence for the key 2^63, which no asset has, satisfies the
    schema and fails with the StorageError of the lookup the driver
    refuses, the database untouched. *)
Example log_evidence_beyond_int64 :
  EvidenceCreate.valid evidence_for_asset_beyond = true
  /\ POST_evidence SQLite evidence_for_asset_beyond 200 scenario_db
     = (Err StorageError, scenario_db, []).
Proof. split; vm_compute; reflexivity. Qed.

(** C7. For a body that satisfies the schema and names a stored asset,
    [create_evidence] appends exactly one Evidence row, which carries the
    asset_id of the body; the asset table and the version table are the ones
    before the request, and the evidence rows stored before keep their place
    and content. *)
Theorem log_evidence_frame (engine : Engine) (body : EvidenceCreate.t) (now : Z) (d : DB) :
  EvidenceCreate.valid body = true ->
  asset_exists (EvidenceCreate.asset_id body) d ->
  let row := new_evidence body now d in
  let d' := db_after (POST_evidence engine body now d) in
  outcome (POST_evidence engine body now d) = Ok row
  /\ Evidence.asset_id row = EvidenceCreate.asset_id body
  /\ evidence d' = evidence d ++ [row]
  /\ asset_versions d' = asset_versions d
  /\ assets d' = assets d.
Proof.
  intros Hvalid Hex row d'. subst d'. unfold POST_evidence. rewrite Hvalid.
  rewrite (create_evidence_runs engine _ now _ Hex). repeat split.
Qed.

Lemma log_evidence_frame_witness :
  let d := db_after (POST_assets plot_a 100 100 empty_db) in
  let d' := db_after (POST_evidence SQLite fence_built 200 d) in
  evidence d' = [Evidence.mk 1 1 "Photo" "fence built" (-17.75)%float 31%float 200]
  /\ asset_versions d' = asset_versions d
  /\ assets d' = assets d.
Proof.
  intros d d'.
  assert (Hex : asset_exists (EvidenceCreate.asset_id fence_built) d).
  { eexists. split; [left; reflexivity|reflexivity]. }
  destruct (log_evidence_frame SQLite fence_built 200 d eq_refl Hex) as (_ & _ & H1 & H2 & H3).
  repeat split; assumption.
Defined.

(** C10. A body whose asset_id is 0 or below is refused with
    ValidationError, with the database untouched: the request does not fail
    with NotFoundError, since the handler and its lookup of the asset are not
    entered. *)
Theorem log_evidence_nonpositive_id
  (engine : Engine) (evidence : EvidenceCreate.t) (now : Z) (d : DB) :
  EvidenceCreate.asset_id evidence <= 0 ->
  POST_evidence engine evidence now d = (Err ValidationError, d, [])
  /\ outcome (POST_evidence engine evidence now d) <> Err NotFoundError.
Proof.
  intros H. assert (Hv : EvidenceCreate.valid evidence = false).
  { unfold EvidenceCreate.valid. replace (0 <? EvidenceCreate.asset_id evidence) with false.
    - reflexivity.
    - symmetry. apply Z.ltb_ge. exact H. }
  unfold POST_evidence. rewrite Hv. split; [reflexivity|discriminate].
Qed.

Lemma log_evidence_nonpositive_id_witness :
  POST_evidence SQLite evidence_for_asset_zero 200 scenario_db
  = (Err ValidationError, scenario_db, [])
  /\ outcome (POST_evidence SQLite evidence_for_asset_zero 200 scenario_db)
     <> Err NotFoundError.
Proof.
  apply (log_evidence_nonpositive_id SQLite evidence_for_asset_zero 200 scenario_db).
  simpl. lia.
Defined.

(** ** Reading one asset *)

Lemma get_asset_missing (engine : Engine) (asset_id : Z) (d : DB) :
  ~ asset_exists asset_id d ->
  GET_asset engine asset_id d
  = (Err (if binds_key engine asset_id then NotFoundError else StorageError), d, []).
Proof.
  intros H. unfold GET_asset, request, get_asset, bind, query_Asset_by_id. cbn [txn].
  rewrite (lookup_missing _ _ H). destruct (binds_key engine asset_id); reflexivity.
Qed.

Lemma get_asset_timeline_missing (engine : Engine) (asset_id : Z) (d : DB) :
  ~ asset_exists asset_id d ->
  GET_asset_timeline engine asset_id d
  = (Err (if binds_key engine asset_id then NotFoundError else StorageError), d, []).
Proof.
  intros H.
  unfold GET_asset_timeline, request, get_asset_timeline, bind, query_Asset_by_id.
  cbn [txn]. rewrite (lookup_missing _ _ H).
  destruct (binds_key engine asset_id); reflexivity.
Qed.

(** C5, as the code has it. When no asset has the key asked for and the key
    lies within 64 bits, [get_asset] fails with NotFoundError, and so does
    [get_asset_timeline]; neither touches the database. *)
Theorem missing_asset_not_found (engine : Engine) (asset_id : Z) (d : DB) :
  ~ asset_exists asset_id d ->
  in_int64 asset_id = true ->
  GET_asset engine asset_id d = (Err NotFoundError, d, [])
  /\ GET_asset_timeline engine asset_id d = (Err NotFoundError, d, []).
Proof.
  intros H Hrange.
  rewrite (get_asset_missing engine _ _ H), (get_asset_timeline_missing engine _ _ H).
  rewrite (in_int64_binds engine _ Hrange). split; reflexivity.
Qed.

Lemma missing_asset_not_found_witness :
  GET_asset SQLite 2 scenario_db = (Err NotFoundError, scenario_db, [])
  /\ GET_asset_timeline SQLite 2 scenario_db = (Err NotFoundError, scenario_db, []).
Proof.
  apply (missing_asset_not_found SQLite 2 scenario_db).
  - intros (a & Hin & Hid). vm_compute in Hin. destruct Hin as [<-|[]]. discriminate Hid.
  - reflexivity.
Defined.

(** C5, as stated, fails: no asset has the key 2^63, and on SQLite, whose
    driver does not bind this integer, [get_asset] and [get_asset_timeline]
    fail with StorageError for it, not with NotFoundError. *)
Lemma missing_asset_beyond_int64 :
  ~ asset_exists (2 ^ 63) scenario_db
  /\ outcome (GET_asset SQLite (2 ^ 63) scenario_db) = Err StorageError
  /\ outcome (GET_asset_timeline SQLite (2 ^ 63) scenario_db) = Err StorageError
  /\ outcome (GET_asset SQLite (2 ^ 63) scenario_db) <> Err NotFoundError
  /\ outcome (GET_asset_timeline SQLite (2 ^ 63) scenario_db) <> Err NotFoundError.
Proof.
  split.
  - intros (a & Hin & Hid). vm_compute in Hin. destruct Hin as [<-|[]]. discriminate Hid.
  - repeat split; try (vm_compute; reflexivity); vm_compute; discriminate.
Qed.

(** ** The sort *)

Section ListSortFacts.
Context {A : Type} (key : A -> Z).

Let ascending : list A -> Prop := StronglySorted (fun a b => key a <= key b).
Let descending : list A -> Prop := StronglySorted (fun a b => key b <= key a).
Let keyed (k : Z) : list A -> list A := filter (fun a => key a =? k).

Lemma insert_by_permutation (x : A) (l : list A) :
  Permutation (insert_by key x l) (x :: l).
Proof.
  induction l as [|y l IH]; simpl; [reflexivity|].
  destruct (key x <=? key y); [reflexivity|].
  rewrite IH. apply perm_swap.
Qed.

Lemma sort_ascending_permutation (l : list A) : Permutation (sort_ascending key l) l.
Proof.
  induction l as [|x l IH]; simpl; [reflexivity|].
  rewrite insert_by_permutation. now apply perm_skip.
Qed.

Lemma insert_by_ascending (x : A) (l : list A) :
  ascending l -> ascending (insert_by key x l).
Proof.
  unfold ascending. induction 1 as [|y l Hl IH Hy]; simpl.
  - repeat constructor.
  - destruct (key x <=? key y) eqn:Hxy.
    + apply Z.leb_le in Hxy. constructor; [now constructor|].
      constructor; [exact Hxy|].
      eapply Forall_impl; [|exact Hy]. simpl. intros; lia.
    + apply Z.leb_gt in Hxy. constructor; [exact IH|].
      eapply Permutation_Forall; [symmetry; apply insert_by_permutation|].
      constructor; [lia|exact Hy].
Qed.

Lemma sort_ascending_ascending (l : list A) : ascending (sort_ascending key l).
Proof.
  induction l as [|x l IH]; simpl; [constructor|]. now apply insert_by_ascending.
Qed.

(** [insert_by] only passes elements of a smaller key: among the elements of
    one key, the one inserted stays in front. *)
Lemma insert_by_keyed (k : Z) (x : A) (l : list A) :
  keyed k (insert_by key x l) = keyed k (x :: l).
Proof.
  unfold keyed. induction l as [|y l IH]; [reflexivity|].
  cbn [insert_by]. destruct (key x <=? key y) eqn:Hxy; [reflexivity|].
  apply Z.leb_gt in Hxy. cbn [filter] in *. rewrite IH.
  destruct (key x =? k) eqn:Hx, (key y =? k) eqn:Hy; try reflexivity.
  apply Z.eqb_eq in Hx, Hy. lia.
Qed.

Lemma sort_ascending_keyed (k : Z) (l : list A) :
  keyed k (sort_ascending key l) = keyed k l.
Proof.
  induction l as [|x l IH]; [reflexivity|].
  cbn [sort_ascending fold_right]. rewrite insert_by_keyed.
  unfold keyed in *. cbn [filter]. fold (sort_ascending key l). now rewrite IH.
Qed.

Lemma descending_snoc (l : list A) (x : A) :
  descending l -> Forall (fun y => key x <= key y) l -> descending (l ++ [x]).
Proof.
  unfold descending. induction 1 as [|y l Hl IH Hy]; simpl; intros Hx.
  - repeat constructor.
  - inversion Hx; subst. constructor; [now apply IH|].
    apply Forall_app. split; [exact Hy|]. now constructor.
Qed.

Lemma rev_ascending (l : list A) : ascending l -> descending (rev l).
Proof.
  unfold ascending. induction 1 as [|x l Hl IH Hx]; simpl; [constructor|].
  apply descending_snoc; [exact IH|]. now apply Forall_rev.
Qed.

Lemma list_sort_reverse_permutation (l : list A) : Permutation (list_sort key true l) l.
Proof.
  unfold list_sort. rewrite <- Permutation_rev, sort_ascending_permutation.
  symmetry. apply Permutation_rev.
Qed.

Lemma list_sort_reverse_descending (l : list A) : descending (list_sort key true l).
Proof. unfold list_sort. apply rev_ascending, sort_ascending_ascending. Qed.

(** The sort is stable, also in reverse: the elements of one key keep the
    order they had. *)
Lemma list_sort_reverse_keyed (k : Z) (l : list A) :
  keyed k (list_sort key true l) = keyed k l.
Proof.
  unfold list_sort, keyed. rewrite filter_rev.
  fold (keyed k (sort_ascending key (rev l))). rewrite sort_ascending_keyed.
  unfold keyed. rewrite filter_rev. apply rev_involutive.
Qed.
End ListSortFacts.

(** ** The timeline *)

Lemma append_each_map {A B : Type} (f : A -> B) (xs : list A) (timeline : list B) :
  append_each f xs timeline = timeline ++ map f xs.
Proof.
  unfold append_each. revert timeline.
  induction xs as [|x xs IH]; intros timeline; simpl.
  - now rewrite app_nil_r.
  - rewrite IH, <- app_assoc. reflexivity.
Qed.

Lemma get_asset_timeline_runs (engine : Engine) (asset_id : Z) (d : DB) :
  asset_exists asset_id d ->
  GET_asset_timeline engine asset_id d
  = (Ok (list_sort TimelineEvent.timestamp true
           (map version_event (versions_of asset_id d)
            ++ map evidence_event (evidence_of asset_id d))), d, []).
Proof.
  intros H.
  unfold GET_asset_timeline, request, get_asset_timeline, bind, query_Asset_by_id,
    query_versions_of, query_evidence_of, read, ret.
  cbn [txn committed]. destruct (lookup_present _ _ H) as (a & ->).
  cbn [txn committed].
  rewrite !append_each_map. reflexivity.
Qed.

Lemma scenario_has_asset_1 : asset_exists 1 scenario_db.
Proof. eexists. split; [left; reflexivity|reflexivity]. Qed.

(** C2. For a stored asset, [get_asset_timeline] answers a list that holds
    one event for each of its AssetVersion rows ("version", the row's
    changed_at and change_reason) and one for each of its Evidence rows
    ("evidence", the row's timestamp, and its evidence_type, a colon, a
    space and its description) and nothing else, so as many events as there
    are rows of the two kinds; the list is ordered by timestamp, most recent
    first. The database is not touched. *)
Theorem timeline_complete_sorted (engine : Engine) (asset_id : Z) (d : DB) :
  asset_exists asset_id d ->
  exists timeline,
    GET_asset_timeline engine asset_id d = (Ok timeline, d, [])
    /\ Permutation timeline
         (map version_event (versions_of asset_id d)
          ++ map evidence_event (evidence_of asset_id d))
    /\ List.length timeline
       = (List.length (versions_of asset_id d) + List.length (evidence_of asset_id d))%nat
    /\ newest_first timeline
    /\ (forall v,
          TimelineEvent.event_type (version_event v) = "version"
          /\ TimelineEvent.timestamp (version_event v) = AssetVersion.changed_at v
          /\ TimelineEvent.description (version_event v) = AssetVersion.change_reason v)
    /\ (forall e,
          TimelineEvent.event_type (evidence_event e) = "evidence"
          /\ TimelineEvent.timestamp (evidence_event e) = Evidence.timestamp e
          /\ TimelineEvent.description (evidence_event e)
             = (Evidence.evidence_type e ++ ": " ++ Evidence.description e)%string).
Proof.
  intros H. eexists. split; [now apply get_asset_timeline_runs|].
  split; [apply list_sort_reverse_permutation|].
  split.
  - rewrite (Permutation_length (list_sort_reverse_permutation _ _)).
    now rewrite length_app, !length_map.
  - split; [apply list_sort_reverse_descending|]. split; intros; repeat split.
Qed.

Lemma timeline_complete_sorted_witness :
  exists timeline,
    GET_asset_timeline SQLite 1 scenario_db = (Ok timeline, scenario_db, [])
    /\ List.length timeline = 2%nat
    /\ newest_first timeline.
Proof.
  destruct (timeline_complete_sorted SQLite 1 scenario_db scenario_has_asset_1)
    as (timeline & Hrun & _ & Hlen & Hsorted & _).
  exists timeline. repeat split; assumption.
Defined.

(** C9. For a stored asset and any timestamp, the events of the timeline
    that carry this timestamp are the version events that carry it, in the
    order the version rows are stored in, followed by the evidence events
    that carry it, in the order the evidence rows are stored in. *)
Theorem timeline_ties_stable (engine : Engine) (asset_id : Z) (d : DB) (t : Z) :
  asset_exists asset_id d ->
  exists timeline,
    GET_asset_timeline engine asset_id d = (Ok timeline, d, [])
    /\ events_at t timeline
       = events_at t (map version_event (versions_of asset_id d))
         ++ events_at t (map evidence_event (evidence_of asset_id d)).
Proof.
  intros H. eexists. split; [now apply get_asset_timeline_runs|].
  unfold events_at. rewrite list_sort_reverse_keyed. apply filter_app.
Qed.

Lemma tied_has_asset_1 : asset_exists 1 tied_db.
Proof. eexists. split; [left; reflexivity|reflexivity]. Qed.

Lemma timeline_ties_stable_witness :
  exists timeline,
    GET_asset_timeline SQLite 1 tied_db = (Ok timeline, tied_db, [])
    /\ events_at 100 timeline
       = [ TimelineEvent.mk "version" 100 "Genesis Creation"
             (Some (VersionDetails "Plot A" "Owner X" 1))
         ; TimelineEvent.mk "evidence" 100 "Photo: fence built"
             (Some (EvidenceDetails "Photo" (-17.75)%float 31%float 1))
         ; TimelineEvent.mk "evidence" 100 "Survey: land survey"
             (Some (EvidenceDetails "Survey" (-17.75)%float 31%float 2)) ].
Proof.
  destruct (timeline_ties_stable SQLite 1 tied_db 100 tied_has_asset_1) as (timeline & Hrun & Hties).
  exists timeline. split; [exact Hrun|]. rewrite Hties. vm_compute. reflexivity.
Defined.

Example tied_timeline :
  outcome (GET_asset_timeline SQLite 1 tied_db)
  = Ok [ TimelineEvent.mk "version" 100 "Genesis Creation"
           (Some (VersionDetails "Plot A" "Owner X" 1))
       ; TimelineEvent.mk "evidence" 100 "Photo: fence built"
           (Some (EvidenceDetails "Photo" (-17.75)%float 31%float 1))
       ; TimelineEvent.mk "evidence" 100 "Survey: land survey"
           (Some (EvidenceDetails "Survey" (-17.75)%float 31%float 2)) ].
Proof. vm_compute. reflexivity. Qed.

(** ** Sequences of requests *)

Lemma StronglySorted_snoc {A : Type} (R : A -> A -> Prop) (l : list A) (x : A) :
  StronglySorted R l -> Forall (fun y => R y x) l -> StronglySorted R (l ++ [x]).
Proof.
  induction 1 as [|y l Hl IH Hy]; simpl; intros Hx.
  - repeat constructor.
  - inversion Hx; subst. constructor; [now apply IH|].
    apply Forall_app. split; [exact Hy|]. now constructor.
Qed.

Lemma in_firstn {A : Type} (n : nat) (l : list A) (y : A) : In y (firstn n l) -> In y l.
Proof.
  revert l. induction n as [|n IH]; intros [|x l]; simpl; try tauto.
  intros [->|H]; [now left|right; now apply IH].
Qed.

Lemma StronglySorted_firstn {A : Type} (R : A -> A -> Prop) (l : list A) (n : nat) :
  StronglySorted R l -> StronglySorted R (firstn n l).
Proof.
  revert n. induction l as [|x l IH]; intros [|n] Hl; simpl; try constructor.
  - apply IH. now inversion Hl.
  - inversion Hl as [|? ? _ Hx]; subst. rewrite Forall_forall in *.
    intros y Hy. apply Hx. now apply in_firstn in Hy.
Qed.

Lemma StronglySorted_skipn {A : Type} (R : A -> A -> Prop) (l : list A) (m : nat) :
  StronglySorted R l -> StronglySorted R (skipn m l).
Proof.
  revert l. induction m as [|m IH]; intros l Hl; [exact Hl|].
  destruct l as [|x l]; [constructor|]. simpl. apply IH. now inversion Hl.
Qed.

Lemma StronglySorted_segment {A : Type} (R : A -> A -> Prop) (l : list A) (n m : nat) :
  StronglySorted R l -> StronglySorted R (firstn n (skipn m l)).
Proof. intros Hl. now apply StronglySorted_firstn, StronglySorted_skipn. Qed.

Lemma well_formed_empty : well_formed empty_db.
Proof. split; simpl; [constructor|tauto|constructor]. Qed.

Lemma asset_exists_grows (asset_id : Z) (d : DB) (a : Asset.t) vs es :
  asset_exists asset_id d -> asset_exists asset_id (mkDB (assets d ++ [a]) vs es).
Proof.
  intros (x & Hin & Hid). exists x. split; [|exact Hid].
  simpl. apply in_or_app. now left.
Qed.

Lemma well_formed_create_asset (asset : AssetCreate.t) (t1 t2 : Z) (d : DB) :
  well_formed d ->
  well_formed (mkDB (assets d ++ [new_asset asset t1 d])
                 (asset_versions d ++ [genesis_of asset t2 d]) (evidence d)).
Proof.
  intros [Hids Hfk Hone]. split; cbn [assets asset_versions].
  - rewrite map_app. apply StronglySorted_snoc; [exact Hids|].
    apply Forall_forall. intros y Hy. simpl. now apply next_id_above.
  - intros v Hv. apply in_app_or in Hv. destruct Hv as [Hv|[<-|[]]].
    + apply asset_exists_grows. now apply Hfk.
    + exists (new_asset asset t1 d). split; [|reflexivity].
      simpl. apply in_or_app. right. now left.
  - rewrite map_app. simpl.
    apply (Permutation_NoDup (Permutation_cons_append _ _)).
    constructor; [|exact Hone].
    intros Hin. apply in_map_iff in Hin. destruct Hin as (v & Hv & Hin).
    apply Hfk in Hin. destruct Hin as (a & Ha & Hid).
    apply (next_id_fresh (map Asset.id (assets d))).
    rewrite <- Hv, <- Hid. now apply in_map.
Qed.

Lemma request_page_db {A : Type} (engine : Engine) (table : DB -> list A)
  (skip limit : Z) (d : DB) :
  db_after (request (query_page engine table skip limit) d) = d.
Proof.
  unfold request, query_page. cbn [txn].
  destruct (offset_limit engine skip limit (table d)); reflexivity.
Qed.

Lemma get_asset_db (engine : Engine) (asset_id : Z) (d : DB) :
  db_after (GET_asset engine asset_id d) = d.
Proof.
  unfold GET_asset, request, get_asset, bind, query_Asset_by_id. cbn [txn].
  destruct (first _); [|destruct (binds_key engine asset_id)]; reflexivity.
Qed.

Lemma get_asset_timeline_db (engine : Engine) (asset_id : Z) (d : DB) :
  db_after (GET_asset_timeline engine asset_id d) = d.
Proof.
  unfold GET_asset_timeline, request, get_asset_timeline, bind, query_Asset_by_id, read.
  cbn [txn]. destruct (first _); [|destruct (binds_key engine asset_id)]; reflexivity.
Qed.

(** What a request does to the database, request by request. *)
Lemma step_cases (engine : Engine) (d : DB) (op : Op) :
  step engine d op = d
  \/ (exists asset t1 t2,
        step engine d op
        = mkDB (assets d ++ [new_asset asset t1 d])
            (asset_versions d ++ [genesis_of asset t2 d]) (evidence d))
  \/ (exists row,
        step engine d op = mkDB (assets d) (asset_versions d) (evidence d ++ [row])).
Proof.
  destruct op as [asset t1 t2|skip limit|asset_id|body now|asset_id|skip limit];
    cbn [step].
  - unfold POST_assets. destruct (AssetCreate.valid asset); [|now left].
    right. left. exists asset, t1, t2. now rewrite create_asset_runs.
  - left. apply request_page_db.
  - left. apply get_asset_db.
  - unfold POST_evidence. destruct (EvidenceCreate.valid body); [|now left].
    destruct (first (filter (fun a => Asset.id a =? EvidenceCreate.asset_id body) (assets d)))
      as [a|] eqn:Hfind.
    + right. right. exists (new_evidence body now d).
      rewrite create_evidence_runs; [reflexivity|].
      exists a. unfold first in Hfind.
      assert (Hin : In a (filter (fun a => Asset.id a =? EvidenceCreate.asset_id body)
                            (assets d))).
      { destruct (filter _ _); [discriminate|]. injection Hfind as ->. now left. }
      apply filter_In in Hin. destruct Hin as [Hin Hid]. split; [exact Hin|].
      now apply Z.eqb_eq.
    + left. unfold request, create_evidence, bind, query_Asset_by_id. cbn [txn].
      rewrite Hfind. destruct (binds_key engine (EvidenceCreate.asset_id body)); reflexivity.
  - left. apply get_asset_timeline_db.
  - left. apply request_page_db.
Qed.

Lemma well_formed_step (engine : Engine) (d : DB) (op : Op) :
  well_formed d -> well_formed (step engine d op).
Proof.
  intros Hd.
  destruct (step_cases engine d op) as [->|[(asset & t1 & t2 & ->)|(row & ->)]].
  - exact Hd.
  - now apply well_formed_create_asset.
  - destruct Hd as [Hids Hfk Hone]. split; cbn [assets asset_versions]; assumption.
Qed.

Lemma well_formed_run (engine : Engine) (ops : list Op) (d : DB) :
  well_formed d -> well_formed (run engine ops d).
Proof.
  unfold run. revert d. induction ops as [|op ops IH]; intros d Hd; [exact Hd|].
  simpl. apply IH. now apply well_formed_step.
Qed.

Lemma filter_nothing {A : Type} (p : A -> bool) (l : list A) :
  (forall x, In x l -> p x = false) -> filter p l = [].
Proof.
  induction l as [|x l IH]; intros H; simpl; [reflexivity|].
  rewrite (H x) by (now left). apply IH. intros; apply H; now right.
Qed.

(** With one version for an asset at most, any ordering holds of them. *)
Lemma one_version_sorted (R : Z -> Z -> Prop) (asset_id : Z) (vs : list AssetVersion.t) :
  NoDup (map AssetVersion.asset_id vs) ->
  StronglySorted R
    (map AssetVersion.changed_at
       (filter (fun v => AssetVersion.asset_id v =? asset_id) vs)).
Proof.
  induction vs as [|v vs IH]; simpl; intros Hnd; [constructor|].
  inversion Hnd as [|? ? Hfresh Hrest]; subst.
  destruct (AssetVersion.asset_id v =? asset_id) eqn:Hv; [|now apply IH].
  apply Z.eqb_eq in Hv. rewrite filter_nothing; [repeat constructor|].
  intros x Hx. apply Z.eqb_neq. intros Heq. apply Hfresh.
  rewrite Hv, <- Heq. now apply in_map.
Qed.

(** C8. After any sequence of requests, the changed_at values of the
    versions of any asset, taken in storage order, never decrease; and any
    further request leaves the version table as it was, but for rows it
    appends: no version row is changed or removed. *)
Theorem versions_append_only (engine : Engine) (ops : list Op) (op : Op) (asset_id : Z) :
  StronglySorted Z.le
    (map AssetVersion.changed_at (versions_of asset_id (run engine ops empty_db)))
  /\ exists added,
       asset_versions (run engine (ops ++ [op]) empty_db)
       = asset_versions (run engine ops empty_db) ++ added.
Proof.
  split.
  - apply one_version_sorted.
    apply one_version_per_asset, well_formed_run, well_formed_empty.
  - unfold run. rewrite fold_left_app. cbn [fold_left].
    destruct (step_cases engine (fold_left (step engine) ops empty_db) op)
      as [->|[(asset & t1 & t2 & ->)|(row & ->)]]; cbn [asset_versions].
    + exists []. now rewrite app_nil_r.
    + eexists. reflexivity.
    + exists []. now rewrite app_nil_r.
Qed.

(** ** Listing assets *)

Lemma in_int64_nonneg (z : Z) : 0 <= z < 2 ^ 63 -> in_int64 z = true.
Proof.
  intros H. unfold in_int64. change (2 ^ 63) with 9223372036854775808 in *.
  apply andb_true_intro. split; [apply Z.leb_le|apply Z.ltb_lt]; lia.
Qed.

Lemma offset_limit_within {A : Type} (engine : Engine) (skip limit : Z) (rows : list A) :
  0 <= skip < 2 ^ 63 -> 0 <= limit < 2 ^ 63 ->
  offset_limit engine skip limit rows
  = Some (firstn (Z.to_nat limit) (skipn (Z.to_nat skip) rows)).
Proof.
  intros Hskip Hlimit. unfold offset_limit.
  rewrite (in_int64_nonneg _ Hskip), (in_int64_nonneg _ Hlimit). cbn [andb negb].
  destruct Hskip as [Hskip _], Hlimit as [Hlimit _].
  apply Z.leb_le in Hskip, Hlimit. rewrite Hskip, Hlimit. reflexivity.
Qed.

(** C6, as the code has it. [get_assets] checks neither argument: whatever
    they are the request does not fail with ValidationError, and it leaves
    the database alone. When neither is negative and both lie within 64
    bits, it answers the assets that follow the first [skip] of the table,
    [limit] of them at most and fewer when the table ends before, in storage
    order, which is the order of their keys. *)
Theorem list_assets_page (engine : Engine) (ops : list Op) (skip limit : Z) :
  let d := run engine ops empty_db in
  outcome (GET_assets engine skip limit d) <> Err ValidationError
  /\ db_after (GET_assets engine skip limit d) = d
  /\ (0 <= skip < 2 ^ 63 -> 0 <= limit < 2 ^ 63 ->
      exists page,
        outcome (GET_assets engine skip limit d) = Ok page
        /\ page = firstn (Z.to_nat limit) (skipn (Z.to_nat skip) (assets d))
        /\ List.length page
           = Nat.min (Z.to_nat limit) (List.length (assets d) - Z.to_nat skip)
        /\ StronglySorted Z.lt (map Asset.id page)).
Proof.
  intros d. split; [|split].
  - unfold GET_assets, get_assets, request, query_page, outcome. cbn [txn].
    destruct (offset_limit engine skip limit (assets d)); simpl; discriminate.
  - apply request_page_db.
  - intros Hskip Hlimit. eexists. split; [|split; [reflexivity|split]].
    + unfold GET_assets, get_assets, request, query_page, outcome. cbn [txn].
      rewrite (offset_limit_within engine _ _ _ Hskip Hlimit). reflexivity.
    + now rewrite length_firstn, length_skipn.
    + rewrite <- firstn_map, <- skipn_map. apply StronglySorted_segment.
      apply asset_ids_grow. subst d. apply well_formed_run, well_formed_empty.
Qed.

Lemma list_assets_page_witness :
  exists page,
    outcome (GET_assets SQLite 0 100 scenario_db) = Ok page
    /\ page = [Asset.mk 1 "Plot A" "Owner X" (-17.75)%float 31%float 5%float 100].
Proof.
  pose proof (list_assets_page SQLite
                [OpCreateAsset plot_a 100 100; OpLogEvidence fence_built 200] 0 100) as H.
  cbv zeta in H. destruct H as (_ & _ & H).
  assert (H0 : 0 <= 0 < 2 ^ 63) by (split; [lia|reflexivity]).
  assert (H100 : 0 <= 100 < 2 ^ 63) by (split; [lia|reflexivity]).
  destruct (H H0 H100) as (page & Hout & Hpage & _).
  exists page. split; [exact Hout|]. rewrite Hpage. vm_compute. reflexivity.
Defined.

(** An offset or a limit of 2^63 is refused by either engine: the request
    fails with StorageError, and the database is left alone. *)
Example list_assets_beyond_int64 :
  GET_assets SQLite (2 ^ 63) 10 scenario_db = (Err StorageError, scenario_db, [])
  /\ GET_assets SQLite 0 (2 ^ 63) scenario_db = (Err StorageError, scenario_db, [])
  /\ GET_assets PostgreSQL (2 ^ 63) 10 scenario_db = (Err StorageError, scenario_db, [])
  /\ GET_assets PostgreSQL 0 (2 ^ 63) scenario_db = (Err StorageError, scenario_db, []).
Proof. repeat split; vm_compute; reflexivity. Qed.

(** C6, as stated, fails: with a negative offset, or a negative limit, the
    request does not fail with ValidationError on either engine. It answers
    the assets on SQLite, and fails with the StorageError of the refused
    statement on PostgreSQL. *)
Lemma list_assets_negative_unchecked :
  outcome (GET_assets SQLite (-1) 10 scenario_db) = Ok (assets scenario_db)
  /\ outcome (GET_assets SQLite 0 (-1) scenario_db) = Ok (assets scenario_db)
  /\ outcome (GET_assets PostgreSQL (-1) 10 scenario_db) = Err StorageError
  /\ outcome (GET_assets PostgreSQL 0 (-1) scenario_db) = Err StorageError
  /\ outcome (GET_assets SQLite (-1) 10 scenario_db) <> Err ValidationError
  /\ outcome (GET_assets PostgreSQL (-1) 10 scenario_db) <> Err ValidationError.
Proof.
  repeat split; try (vm_compute; reflexivity); vm_compute; discriminate.
Qed.

(** * Further properties *)

(** ** Keys *)

Lemma fold_max_snoc (ids : list Z) (x : Z) :
  0 <= x -> fold_right Z.max 0 (ids ++ [x]) = Z.max (fold_right Z.max 0 ids) x.
Proof. intros Hx. induction ids as [|y ids IH]; simpl; [lia|]. rewrite IH. lia. Qed.

Lemma keys_1_to_S (n : nat) : keys_1_to (S n) = keys_1_to n ++ [Z.of_nat (S n)].
Proof. unfold keys_1_to. rewrite seq_S, map_app. reflexivity. Qed.

Lemma next_id_keys (n : nat) : next_id (keys_1_to n) = Z.of_nat (S n).
Proof.
  unfold next_id. assert (H : fold_right Z.max 0 (keys_1_to n) = Z.of_nat n); [|lia].
  induction n as [|n IH]; [reflexivity|].
  rewrite keys_1_to_S, fold_max_snoc, IH by lia. lia.
Qed.

Lemma keys_snoc {A : Type} (key : A -> Z) (rows : list A) (row : A) :
  map key rows = keys_1_to (List.length rows) ->
  key row = next_id (map key rows) ->
  map key (rows ++ [row]) = keys_1_to (List.length (rows ++ [row])).
Proof.
  intros Hkeys Hrow. rewrite map_app, length_app, Nat.add_1_r, keys_1_to_S. simpl.
  rewrite Hrow, Hkeys, next_id_keys. reflexivity.
Qed.

(** ** What one request does *)

Lemma lookup_found (asset_id : Z) (d : DB) (a : Asset.t) :
  first (filter (fun a => Asset.id a =? asset_id) (assets d)) = Some a ->
  In a (assets d) /\ Asset.id a = asset_id.
Proof.
  intros Hfind.
  assert (Hin : In a (filter (fun a => Asset.id a =? asset_id) (assets d))).
  { unfold first in Hfind. destruct (filter _ _); [discriminate|].
    injection Hfind as ->. now left. }
  apply filter_In in Hin. destruct Hin as [Hin Hid]. split; [exact Hin|].
  now apply Z.eqb_eq.
Qed.

Lemma has_asset_exists (asset_id : Z) (d : DB) :
  has_asset asset_id d = true <-> asset_exists asset_id d.
Proof.
  unfold has_asset, asset_exists. rewrite existsb_exists.
  split; intros (a & Hin & Hid); exists a; (split; [exact Hin|]); now apply Z.eqb_eq.
Qed.

Lemma has_asset_missing (asset_id : Z) (d : DB) :
  has_asset asset_id d = false -> ~ asset_exists asset_id d.
Proof. intros Hno Hex. apply has_asset_exists in Hex. congruence. Qed.

(** A request either leaves the database as it is, or is a valid creation
    that appends an asset and its genesis version, or is valid evidence for
    a stored asset that appends one evidence row. *)
Lemma step_detail (engine : Engine) (d : DB) (op : Op) :
  step engine d op = d
  \/ (exists asset t1 t2,
        op = OpCreateAsset asset t1 t2
        /\ AssetCreate.valid asset = true
        /\ step engine d op
           = mkDB (assets d ++ [new_asset asset t1 d])
               (asset_versions d ++ [genesis_of asset t2 d]) (evidence d))
  \/ (exists body now,
        op = OpLogEvidence body now
        /\ EvidenceCreate.valid body = true
        /\ asset_exists (EvidenceCreate.asset_id body) d
        /\ step engine d op
           = mkDB (assets d) (asset_versions d) (evidence d ++ [new_evidence body now d])).
Proof.
  destruct op as [asset t1 t2|skip limit|asset_id|body now|asset_id|skip limit];
    cbn [step].
  - unfold POST_assets. destruct (AssetCreate.valid asset) eqn:Hvalid; [|now left].
    right. left. exists asset, t1, t2. now rewrite create_asset_runs.
  - left. apply request_page_db.
  - left. apply get_asset_db.
  - unfold POST_evidence. destruct (EvidenceCreate.valid body) eqn:Hvalid; [|now left].
    destruct (has_asset (EvidenceCreate.asset_id body) d) eqn:Hhas.
    + apply has_asset_exists in Hhas. right. right. exists body, now.
      now rewrite create_evidence_runs.
    + apply has_asset_missing in Hhas. left. now rewrite create_evidence_missing.
  - left. apply get_asset_timeline_db.
  - left. apply request_page_db.
Qed.

(** ** The invariant of the registry *)

Lemma registry_invariant_empty : registry_invariant empty_db.
Proof. split; simpl; try reflexivity; constructor. Qed.

Lemma asset_create_eta (asset : AssetCreate.t) :
  AssetCreate.mk (AssetCreate.name asset) (AssetCreate.owner asset)
    (AssetCreate.location_lat asset) (AssetCreate.location_lon asset)
    (AssetCreate.size_hectares asset) = asset.
Proof. now destruct asset. Qed.

Lemma evidence_create_eta (body : EvidenceCreate.t) :
  EvidenceCreate.mk (EvidenceCreate.asset_id body) (EvidenceCreate.evidence_type body)
    (EvidenceCreate.description body) (EvidenceCreate.gps_lat body)
    (EvidenceCreate.gps_lon body) = body.
Proof. now destruct body. Qed.

Lemma registry_invariant_step (engine : Engine) (d : DB) (op : Op) :
  registry_invariant d -> registry_invariant (step engine d op).
Proof.
  intros [Hak Hvk Hek Hgen Hfk Hav Hev].
  destruct (step_detail engine d op)
    as [->|[(asset & t1 & t2 & _ & Hvalid & ->)|(body & now & _ & Hvalid & Hex & ->)]].
  - now split.
  - split; cbn [assets asset_versions evidence]; try assumption.
    + now apply keys_snoc.
    + now apply keys_snoc.
    + apply Forall2_app; [exact Hgen|]. constructor; [|constructor].
      repeat split.
    + eapply Forall_impl; [|exact Hfk]. intros e He. now apply asset_exists_grows.
    + apply Forall_app. split; [exact Hav|]. constructor; [|constructor].
      unfold stored_asset_valid. simpl. now rewrite asset_create_eta.
  - split; cbn [assets asset_versions evidence]; try assumption.
    + now apply keys_snoc.
    + apply Forall_app. split; [exact Hfk|]. constructor; [exact Hex|constructor].
    + apply Forall_app. split; [exact Hev|]. constructor; [|constructor].
      unfold stored_evidence_valid. simpl. now rewrite evidence_create_eta.
Qed.

Lemma registry_invariant_run (engine : Engine) (ops : list Op) (d : DB) :
  registry_invariant d -> registry_invariant (run engine ops d).
Proof.
  unfold run. revert d. induction ops as [|op ops IH]; intros d Hd; [exact Hd|].
  simpl. apply IH. now apply registry_invariant_step.
Qed.

Lemma registry_invariant_reached (engine : Engine) (ops : list Op) :
  registry_invariant (run engine ops empty_db).
Proof. apply registry_invariant_run, registry_invariant_empty. Qed.

Lemma well_formed_reached (engine : Engine) (ops : list Op) :
  well_formed (run engine ops empty_db).
Proof. apply well_formed_run, well_formed_empty. Qed.

(** X1. After any sequence of requests the keys of each table are 1, 2,
    ..., n in storage order: the k-th asset created has the key k, and so
    for the versions and for the evidence. *)
Theorem keys_are_sequential (engine : Engine) (ops : list Op) :
  let d := run engine ops empty_db in
  map Asset.id (assets d) = keys_1_to (List.length (assets d))
  /\ map AssetVersion.id (asset_versions d) = keys_1_to (List.length (asset_versions d))
  /\ map Evidence.id (evidence d) = keys_1_to (List.length (evidence d)).
Proof.
  intros d. destruct (registry_invariant_reached engine ops) as [Hak Hvk Hek _ _ _ _].
  repeat split; assumption.
Qed.

Lemma single_version {A : Type} (f : A -> Z) (l : list A) (v : A) :
  NoDup (map f l) -> In v l -> filter (fun x => f x =? f v) l = [v].
Proof.
  induction l as [|x l IH]; simpl; [tauto|]. intros Hnd Hin.
  inversion Hnd as [|? ? Hfresh Hrest]; subst. destruct Hin as [->|Hin].
  - rewrite Z.eqb_refl. f_equal. apply filter_nothing.
    intros y Hy. apply Z.eqb_neq. intros Heq. apply Hfresh. rewrite <- Heq.
    now apply in_map.
  - replace (f x =? f v) with false; [now apply IH|].
    symmetry. apply Z.eqb_neq. intros Heq. apply Hfresh. rewrite Heq. now apply in_map.
Qed.

Lemma Forall2_partner {A B : Type} (R : A -> B -> Prop) (l : list A) (l' : list B) (a : A) :
  Forall2 R l l' -> In a l -> exists b, In b l' /\ R a b.
Proof.
  induction 1 as [|x y l l' Hxy _ IH]; simpl; [tauto|].
  intros [->|Hin]; [now exists y; auto|].
  destruct (IH Hin) as (b & Hb & Hab). exists b. auto.
Qed.

(** X2. After any sequence of requests every stored asset has exactly one
    version, and it is its genesis: change_reason "Genesis Creation", with
    the name and the owner of the asset. *)
Theorem every_asset_has_its_genesis (engine : Engine) (ops : list Op) (a : Asset.t) :
  In a (assets (run engine ops empty_db)) ->
  exists v,
    versions_of (Asset.id a) (run engine ops empty_db) = [v]
    /\ genesis_for a v.
Proof.
  intros Hin.
  destruct (Forall2_partner _ _ _ a (genesis_pairs _ (registry_invariant_reached engine ops)) Hin)
    as (v & Hv & Hgen).
  exists v. split; [|exact Hgen].
  destruct Hgen as (<- & _). unfold versions_of.
  apply single_version; [|exact Hv].
  apply one_version_per_asset, well_formed_reached.
Qed.

Lemma every_asset_has_its_genesis_witness :
  versions_of 1 scenario_db
  = [AssetVersion.mk 1 1 "Plot A" "Owner X" "Genesis Creation" 100].
Proof.
  destruct (every_asset_has_its_genesis SQLite
              [OpCreateAsset plot_a 100 100; OpLogEvidence fence_built 200]
              (Asset.mk 1 "Plot A" "Owner X" (-17.75)%float 31%float 5%float 100))
    as (v & Hv & _).
  - left. reflexivity.
  - vm_compute. reflexivity.
Defined.

(** X3. After any sequence of requests every evidence row and every version
    row carries the key of a stored asset. *)
Theorem rows_refer_to_stored_assets (engine : Engine) (ops : list Op) :
  let d := run engine ops empty_db in
  (forall e, In e (evidence d) -> asset_exists (Evidence.asset_id e) d)
  /\ (forall v, In v (asset_versions d) -> asset_exists (AssetVersion.asset_id v) d).
Proof.
  intros d. split.
  - apply Forall_forall, evidence_has_asset, registry_invariant_reached.
  - apply versions_have_asset, well_formed_reached.
Qed.

(** X4. After any sequence of requests every stored asset and every stored
    evidence row meets the constraints of the schema of its request: the
    lengths of the strings, the ranges of the coordinates, a size above 0, a
    positive asset_id. *)
Theorem stored_rows_meet_schema (engine : Engine) (ops : list Op) :
  let d := run engine ops empty_db in
  Forall stored_asset_valid (assets d) /\ Forall stored_evidence_valid (evidence d).
Proof.
  intros d. split.
  - apply assets_valid, registry_invariant_reached.
  - apply evidence_valid, registry_invariant_reached.
Qed.

(** ** What requests never do *)

Lemma run_appends (engine : Engine) (ops : list Op) (d : DB) :
  exists new_assets new_versions new_evidence,
    run engine ops d
    = mkDB (assets d ++ new_assets) (asset_versions d ++ new_versions)
        (evidence d ++ new_evidence).
Proof.
  unfold run. revert d. induction ops as [|op ops IH]; intros d; simpl.
  - exists [], [], []. rewrite !app_nil_r. now destruct d.
  - destruct (IH (step engine d op)) as (na & nv & ne & ->).
    destruct (step_detail engine d op)
      as [->|[(asset & t1 & t2 & _ & _ & ->)|(body & now & _ & _ & _ & ->)]];
      cbn [assets asset_versions evidence]; rewrite <- ?app_assoc; eauto.
Qed.

(** X5. No sequence of requests, from any database, changes or removes a
    stored row or changes the order of the rows: each table after the
    requests is the table before them, followed by the rows added. *)
Theorem tables_append_only (engine : Engine) (ops : list Op) (d : DB) :
  exists new_assets new_versions new_evidence,
    assets (run engine ops d) = assets d ++ new_assets
    /\ asset_versions (run engine ops d) = asset_versions d ++ new_versions
    /\ evidence (run engine ops d) = evidence d ++ new_evidence.
Proof.
  destruct (run_appends engine ops d) as (na & nv & ne & ->).
  exists na, nv, ne. repeat split.
Qed.

Lemma SFcompare_finite_refl (s : bool) (m : positive) (e : Z) :
  SFcompare (S754_finite s m e) (S754_finite s m e) = Some Eq.
Proof.
  simpl. rewrite Z.compare_refl, Pos.compare_cont_refl. destruct s; reflexivity.
Qed.

(** A number between two finite numbers is finite. *)
Lemma between_finite_is_finite (lo hi x : float) :
  is_finite lo = true -> is_finite hi = true ->
  ((lo <=? x) && (x <=? hi))%float = true ->
  is_finite x = true.
Proof.
  unfold is_finite, is_nan, is_infinity.
  rewrite !leb_spec, !eqb_spec, !abs_spec.
  change (Prim2SF infinity) with (S754_infinity false).
  intros Hlo Hhi H. apply andb_true_iff in H. destruct H as [H1 H2].
  destruct (Prim2SF x) as [sx|sx| |sx mx ex].
  - reflexivity.
  - exfalso. destruct sx.
    + destruct (Prim2SF lo) as [s|s| |s m e]; try discriminate; destruct s; discriminate.
    + destruct (Prim2SF hi) as [s|s| |s m e]; try discriminate; destruct s; discriminate.
  - discriminate.
  - unfold SFeqb. rewrite SFcompare_finite_refl. reflexivity.
Qed.

Lemma latitude_is_json_number (x : float) :
  latitude_in_range x = true -> json_number x = true.
Proof. apply between_finite_is_finite; reflexivity. Qed.

Lemma longitude_is_json_number (x : float) :
  longitude_in_range x = true -> json_number x = true.
Proof. apply between_finite_is_finite; reflexivity. Qed.

Lemma valid_asset_coordinates (asset : AssetCreate.t) :
  AssetCreate.valid asset = true ->
  json_number (AssetCreate.location_lat asset) = true
  /\ json_number (AssetCreate.location_lon asset) = true.
Proof.
  unfold AssetCreate.valid. intros H.
  repeat (apply andb_true_iff in H; destruct H as [H ?]).
  split; [apply latitude_is_json_number|apply longitude_is_json_number];
    apply andb_true_iff; split; assumption.
Qed.

Lemma valid_evidence_renders (body : EvidenceCreate.t) (now : Z) (d : DB) :
  EvidenceCreate.valid body = true -> renders_Evidence (new_evidence body now d) = true.
Proof.
  unfold EvidenceCreate.valid, renders_Evidence. cbn [new_evidence Evidence.gps_lat Evidence.gps_lon].
  intros H. repeat (apply andb_true_iff in H; destruct H as [H ?]).
  apply andb_true_iff.
  split; [apply latitude_is_json_number|apply longitude_is_json_number];
    apply andb_true_iff; split; assumption.
Qed.

(** X6. A request answered with the status of a failure leaves the database
    exactly as it was, with one exception: a creation whose body meets the
    schema with a size that is not a finite number. It stores the asset and
    its genesis version, and is answered 500 because the asset is not
    rendered. *)
Theorem failed_request_changes_nothing (engine : Engine) (d : DB) (op : Op) :
  400 <= http_status engine d op ->
  step engine d op = d
  \/ (exists asset t1 t2,
        op = OpCreateAsset asset t1 t2
        /\ AssetCreate.valid asset = true
        /\ json_number (AssetCreate.size_hectares asset) = false
        /\ step engine d op
           = mkDB (assets d ++ [new_asset asset t1 d])
               (asset_versions d ++ [genesis_of asset t2 d]) (evidence d)).
Proof.
  intros Hfail.
  destruct (step_detail engine d op)
    as [Hsame|[(asset & t1 & t2 & -> & Hvalid & Hstep)|(body & now & -> & Hvalid & Hex & _)]].
  - now left.
  - right. exists asset, t1, t2. repeat split; try assumption.
    destruct (json_number (AssetCreate.size_hectares asset)) eqn:Hsize; [|reflexivity].
    exfalso. revert Hfail. cbn [http_status]. unfold answer, POST_assets.
    rewrite Hvalid, create_asset_runs. cbn [outcome fst].
    unfold renders_Asset. cbn [new_asset Asset.location_lat Asset.location_lon Asset.size_hectares].
    destruct (valid_asset_coordinates asset Hvalid) as [-> ->]. rewrite Hsize.
    cbn [andb]. lia.
  - exfalso. revert Hfail. cbn [http_status]. unfold answer, POST_evidence.
    rewrite Hvalid, (create_evidence_runs engine _ _ _ Hex). cbn [outcome fst].
    rewrite (valid_evidence_renders _ _ _ Hvalid). lia.
Qed.

Lemma failed_request_changes_nothing_witness :
  step PostgreSQL scenario_db (OpListAssets (-1) 10) = scenario_db
  /\ step SQLite scenario_db (OpLogEvidence evidence_for_asset_99999 300) = scenario_db
  /\ step SQLite scenario_db (OpGetAsset (2 ^ 63)) = scenario_db.
Proof.
  split; [|split].
  - destruct (failed_request_changes_nothing PostgreSQL scenario_db (OpListAssets (-1) 10))
      as [H|(asset & t1 & t2 & Hop & _)]; [vm_compute; discriminate|exact H|discriminate Hop].
  - destruct (failed_request_changes_nothing SQLite scenario_db
                (OpLogEvidence evidence_for_asset_99999 300))
      as [H|(asset & t1 & t2 & Hop & _)]; [vm_compute; discriminate|exact H|discriminate Hop].
  - destruct (failed_request_changes_nothing SQLite scenario_db (OpGetAsset (2 ^ 63)))
      as [H|(asset & t1 & t2 & Hop & _)]; [vm_compute; discriminate|exact H|discriminate Hop].
Defined.

(** The exception is real: the creation of a plot of infinite size meets the
    schema and is answered 500, with the asset and its genesis stored. *)
Example boundless_plot_is_stored :
  AssetCreate.valid boundless_plot = true
  /\ http_status SQLite empty_db (OpCreateAsset boundless_plot 100 100) = 500
  /\ step SQLite empty_db (OpCreateAsset boundless_plot 100 100)
     = mkDB [Asset.mk 1 "Plot A" "Owner X" (-17.75)%float 31%float infinity 100]
         [AssetVersion.mk 1 1 "Plot A" "Owner X" "Genesis Creation" 100] [].
Proof. repeat split; vm_compute; reflexivity. Qed.

(** A body whose latitude is not a number is refused by the schema and
    nothing is stored; the answer is 500 and not 422, since the refusal,
    which quotes the latitude, is not rendered. *)
Example plot_nowhere_is_refused :
  POST_assets plot_nowhere 100 100 scenario_db = (Err ValidationError, scenario_db, [])
  /\ http_status SQLite scenario_db (OpCreateAsset plot_nowhere 100 100) = 500.
Proof. split; vm_compute; reflexivity. Qed.

Lemma request_page_observed {A : Type} (engine : Engine) (table : DB -> list A)
  (skip limit : Z) (d : DB) :
  observed (request (query_page engine table skip limit) d) = [].
Proof.
  unfold request, query_page. cbn [txn].
  destruct (offset_limit engine skip limit (table d)); reflexivity.
Qed.

(** X7. The four reading routes never write: whatever their arguments and
    the engine, and whether they succeed or fail, the database after them is
    the database before, and no statement that writes was sent. *)
Theorem reads_change_nothing (engine : Engine) (skip limit asset_id : Z) (d : DB) :
  (db_after (GET_assets engine skip limit d) = d
   /\ observed (GET_assets engine skip limit d) = [])
  /\ (db_after (GET_evidence engine skip limit d) = d
      /\ observed (GET_evidence engine skip limit d) = [])
  /\ (db_after (GET_asset engine asset_id d) = d /\ observed (GET_asset engine asset_id d) = [])
  /\ (db_after (GET_asset_timeline engine asset_id d) = d
      /\ observed (GET_asset_timeline engine asset_id d) = []).
Proof.
  repeat split.
  - apply request_page_db.
  - apply request_page_observed.
  - apply request_page_db.
  - apply request_page_observed.
  - apply get_asset_db.
  - unfold GET_asset, request, get_asset, bind, query_Asset_by_id. cbn [txn].
    destruct (first _); [|destruct (binds_key engine asset_id)]; reflexivity.
  - apply get_asset_timeline_db.
  - unfold GET_asset_timeline, request, get_asset_timeline, bind, query_Asset_by_id, read.
    cbn [txn]. destruct (first _); [|destruct (binds_key engine asset_id)]; reflexivity.
Qed.

(** ** Reading an asset back *)

Lemma get_asset_runs (engine : Engine) (asset_id : Z) (d : DB) :
  GET_asset engine asset_id d
  = (match first (filter (fun a => Asset.id a =? asset_id) (assets d)) with
     | Some a => Ok a
     | None => Err (if binds_key engine asset_id then NotFoundError else StorageError)
     end, d, []).
Proof.
  unfold GET_asset, request, get_asset, bind, query_Asset_by_id. cbn [txn].
  destruct (first _); [|destruct (binds_key engine asset_id)]; reflexivity.
Qed.

(** X8. For the key of a stored asset, [get_asset] answers a stored asset
    that has this key. *)
Theorem get_asset_found (engine : Engine) (asset_id : Z) (d : DB) :
  asset_exists asset_id d ->
  exists a,
    GET_asset engine asset_id d = (Ok a, d, [])
    /\ In a (assets d)
    /\ Asset.id a = asset_id.
Proof.
  intros Hex. destruct (lookup_present _ _ Hex) as (a & Hfind). exists a.
  rewrite get_asset_runs, Hfind. split; [reflexivity|]. now apply lookup_found.
Qed.

Lemma get_asset_found_witness :
  exists a,
    GET_asset SQLite 1 scenario_db = (Ok a, scenario_db, [])
    /\ In a (assets scenario_db)
    /\ Asset.id a = 1.
Proof. apply (get_asset_found SQLite 1 scenario_db). apply scenario_has_asset_1. Defined.

Lemma first_filter_app {A : Type} (p : A -> bool) (l more : list A) (x : A) :
  first (filter p l) = Some x -> first (filter p (l ++ more)) = Some x.
Proof.
  rewrite filter_app. unfold first. destruct (filter p l); [discriminate|]. auto.
Qed.

(** X9. The asset a valid [create_asset] returns is what [get_asset] answers
    for its key from then on, after any further sequence of requests: its
    fields, created_at among them, never change. *)
Theorem created_asset_stays_readable
  (asset : AssetCreate.t) (t1 t2 : Z) (d : DB) (engine : Engine) (ops : list Op) :
  AssetCreate.valid asset = true ->
  outcome (POST_assets asset t1 t2 d) = Ok (new_asset asset t1 d)
  /\ outcome
       (GET_asset engine (Asset.id (new_asset asset t1 d))
          (run engine ops (db_after (POST_assets asset t1 t2 d))))
     = Ok (new_asset asset t1 d).
Proof.
  intros Hvalid. unfold POST_assets. rewrite Hvalid, create_asset_runs.
  split; [reflexivity|]. cbn [db_after fst snd].
  destruct (run_appends engine ops
              (mkDB (assets d ++ [new_asset asset t1 d])
                 (asset_versions d ++ [genesis_of asset t2 d]) (evidence d)))
    as (na & nv & ne & ->).
  rewrite get_asset_runs. cbn [assets outcome fst].
  erewrite first_filter_app; [reflexivity|].
  apply first_filter_last; [|apply Z.eqb_refl].
  intros r Hr. apply id_not_next. now apply in_map.
Qed.

Lemma created_asset_stays_readable_witness :
  outcome (GET_asset SQLite 1 scenario_db)
  = Ok (Asset.mk 1 "Plot A" "Owner X" (-17.75)%float 31%float 5%float 100).
Proof.
  apply (created_asset_stays_readable plot_a 100 100 empty_db SQLite
           [OpLogEvidence fence_built 200]).
  vm_compute. reflexivity.
Defined.

(** ** The outcome of a write, in full *)

(** X10. The outcome of [create_evidence] is decided by tests made in this
    order. A body that does not meet the schema fails with ValidationError.
    A body that meets it and names a stored asset succeeds and returns the
    stored row. A body that meets it and names no stored asset fails with
    NotFoundError when its asset_id lies within 64 bits, on any engine; on
    SQLite it fails with StorageError when its asset_id lies outside.
    [create_asset] has a row to return exactly for the bodies that meet its
    schema, and fails with ValidationError for the others. *)
Theorem write_outcomes
  (engine : Engine) (asset : AssetCreate.t) (body : EvidenceCreate.t) (t1 t2 now : Z)
  (d : DB) :
  (in_int64 (EvidenceCreate.asset_id body) = true ->
   outcome (POST_evidence engine body now d)
   = (if EvidenceCreate.valid body then
        if has_asset (EvidenceCreate.asset_id body) d then Ok (new_evidence body now d)
        else Err NotFoundError
      else Err ValidationError))
  /\ outcome (POST_evidence SQLite body now d)
     = (if EvidenceCreate.valid body then
          if has_asset (EvidenceCreate.asset_id body) d then Ok (new_evidence body now d)
          else if in_int64 (EvidenceCreate.asset_id body) then Err NotFoundError
          else Err StorageError
        else Err ValidationError)
  /\ outcome (POST_assets asset t1 t2 d)
     = (if AssetCreate.valid asset then Ok (new_asset asset t1 d) else Err ValidationError).
Proof.
  split; [|split].
  - intros Hrange. unfold POST_evidence.
    destruct (EvidenceCreate.valid body); [|reflexivity].
    destruct (has_asset (EvidenceCreate.asset_id body) d) eqn:Hhas.
    + apply has_asset_exists in Hhas. now rewrite create_evidence_runs.
    + apply has_asset_missing in Hhas. rewrite create_evidence_missing by exact Hhas.
      now rewrite (in_int64_binds engine _ Hrange).
  - unfold POST_evidence. destruct (EvidenceCreate.valid body); [|reflexivity].
    destruct (has_asset (EvidenceCreate.asset_id body) d) eqn:Hhas.
    + apply has_asset_exists in Hhas. now rewrite create_evidence_runs.
    + apply has_asset_missing in Hhas. rewrite create_evidence_missing by exact Hhas.
      cbn [binds_key outcome fst].
      destruct (in_int64 (EvidenceCreate.asset_id body)); reflexivity.
  - unfold POST_assets. destruct (AssetCreate.valid asset); [|reflexivity].
    now rewrite create_asset_runs.
Qed.

Lemma write_outcomes_witness :
  outcome (POST_evidence PostgreSQL evidence_for_asset_99999 300 scenario_db)
  = Err NotFoundError
  /\ outcome (POST_evidence SQLite evidence_for_asset_beyond 300 scenario_db)
     = Err StorageError.
Proof.
  destruct (write_outcomes PostgreSQL plot_a evidence_for_asset_99999 100 100 300 scenario_db)
    as (Hwithin & _ & _).
  destruct (write_outcomes SQLite plot_a evidence_for_asset_beyond 100 100 300 scenario_db)
    as (_ & Hsqlite & _).
  split; [apply Hwithin; reflexivity|exact Hsqlite].
Defined.

(** ** How the timeline moves *)

Lemma filter_everything {A : Type} (p : A -> bool) (l : list A) :
  (forall x, In x l -> p x = true) -> filter p l = l.
Proof.
  induction l as [|x l IH]; intros H; simpl; [reflexivity|].
  rewrite (H x) by (now left). f_equal. apply IH. intros; apply H; now right.
Qed.

Section InsertFacts.
Context {A : Type} (key : A -> Z).

(** In an ascending list [insert_by] puts the element after those of a
    smaller key and before all others. *)
Lemma insert_by_split (x : A) (l : list A) :
  StronglySorted (fun a b => key a <= key b) l ->
  insert_by key x l
  = filter (fun y => key y <? key x) l ++ x :: filter (fun y => key x <=? key y) l.
Proof.
  induction 1 as [|y l Hl IH Hy]; [reflexivity|].
  cbn [insert_by filter]. destruct (key x <=? key y) eqn:Hxy.
  - apply Z.leb_le in Hxy. rewrite Forall_forall in Hy.
    replace (key y <? key x) with false by (symmetry; apply Z.ltb_ge; lia).
    rewrite filter_nothing, filter_everything; [reflexivity| |].
    + intros z Hz. apply Z.leb_le. specialize (Hy z Hz). lia.
    + intros z Hz. apply Z.ltb_ge. specialize (Hy z Hz). lia.
  - apply Z.leb_gt in Hxy.
    replace (key y <? key x) with true by (symmetry; apply Z.ltb_lt; lia).
    rewrite IH. reflexivity.
Qed.

(** Sorting, most recent first, a list with one more element at its end:
    the element goes after those at least as recent and before the older. *)
Lemma list_sort_reverse_snoc (x : A) (l : list A) :
  list_sort key true (l ++ [x])
  = filter (fun y => key x <=? key y) (list_sort key true l)
    ++ x :: filter (fun y => key y <? key x) (list_sort key true l).
Proof.
  unfold list_sort. rewrite rev_app_distr. cbn [rev app sort_ascending fold_right].
  fold (sort_ascending key (rev l)).
  rewrite insert_by_split by apply sort_ascending_ascending.
  rewrite rev_app_distr. cbn [rev]. rewrite <- app_assoc. cbn [app].
  now rewrite !filter_rev.
Qed.
End InsertFacts.

Lemma get_asset_timeline_value (engine : Engine) (asset_id : Z) (d : DB) :
  outcome (GET_asset_timeline engine asset_id d)
  = match first (filter (fun a => Asset.id a =? asset_id) (assets d)) with
    | Some _ =>
        Ok (list_sort TimelineEvent.timestamp true
              (map version_event (versions_of asset_id d)
               ++ map evidence_event (evidence_of asset_id d)))
    | None => Err (if binds_key engine asset_id then NotFoundError else StorageError)
    end.
Proof.
  destruct (first _) as [a|] eqn:Hfind.
  - rewrite get_asset_timeline_runs; [reflexivity|].
    apply lookup_found in Hfind. destruct Hfind. now exists a.
  - unfold GET_asset_timeline, request, get_asset_timeline, bind, query_Asset_by_id, read.
    cbn [txn]. rewrite Hfind. destruct (binds_key engine asset_id); reflexivity.
Qed.

Lemma timeline_after_evidence (engine : Engine) (body : EvidenceCreate.t) (now : Z) (d : DB) :
  EvidenceCreate.valid body = true ->
  asset_exists (EvidenceCreate.asset_id body) d ->
  exists old,
    outcome (GET_asset_timeline engine (EvidenceCreate.asset_id body) d) = Ok old
    /\ outcome
         (GET_asset_timeline engine (EvidenceCreate.asset_id body)
            (db_after (POST_evidence engine body now d)))
       = Ok (filter (fun e => now <=? TimelineEvent.timestamp e) old
             ++ evidence_event (new_evidence body now d)
                :: filter (fun e => TimelineEvent.timestamp e <? now) old).
Proof.
  intros Hvalid Hex. eexists. split.
  - rewrite get_asset_timeline_runs by exact Hex. reflexivity.
  - unfold POST_evidence. rewrite Hvalid, (create_evidence_runs engine _ now _ Hex).
    cbn [db_after fst snd]. rewrite get_asset_timeline_runs by exact Hex.
    unfold versions_of, evidence_of. cbn [outcome fst assets asset_versions evidence].
    rewrite filter_app. cbn [filter new_evidence Evidence.asset_id].
    rewrite Z.eqb_refl, map_app, app_assoc. cbn [map].
    rewrite list_sort_reverse_snoc. reflexivity.
Qed.

(** X11. Logging valid evidence for a stored asset adds exactly one event
    to its timeline and moves no other: the new timeline is the old one with
    the event of the new evidence placed after the events at least as recent
    as it and before the older ones. *)
Theorem evidence_enters_timeline (engine : Engine) (body : EvidenceCreate.t) (now : Z) (d : DB) :
  EvidenceCreate.valid body = true ->
  asset_exists (EvidenceCreate.asset_id body) d ->
  exists old,
    outcome (GET_asset_timeline engine (EvidenceCreate.asset_id body) d) = Ok old
    /\ outcome
         (GET_asset_timeline engine (EvidenceCreate.asset_id body)
            (db_after (POST_evidence engine body now d)))
       = Ok (filter (fun e => now <=? TimelineEvent.timestamp e) old
             ++ evidence_event (new_evidence body now d)
                :: filter (fun e => TimelineEvent.timestamp e <? now) old).
Proof. exact (timeline_after_evidence engine body now d). Qed.

Lemma evidence_enters_timeline_witness :
  outcome
    (GET_asset_timeline SQLite 1
       (db_after (POST_evidence SQLite survey_done 150 scenario_db)))
  = Ok [ TimelineEvent.mk "evidence" 200 "Photo: fence built"
           (Some (EvidenceDetails "Photo" (-17.75)%float 31%float 1))
       ; TimelineEvent.mk "evidence" 150 "Survey: land survey"
           (Some (EvidenceDetails "Survey" (-17.75)%float 31%float 2))
       ; TimelineEvent.mk "version" 100 "Genesis Creation"
           (Some (VersionDetails "Plot A" "Owner X" 1)) ].
Proof.
  destruct (evidence_enters_timeline SQLite survey_done 150 scenario_db eq_refl
              scenario_has_asset_1)
    as (old & Hold & Hnew).
  change (EvidenceCreate.asset_id survey_done) with 1 in Hold, Hnew.
  rewrite Hnew. vm_compute in Hold. injection Hold as <-. vm_compute. reflexivity.
Defined.

(** X12. When the clock reading of the evidence is later than the timestamp
    of every event of the timeline, the new timeline is the event of the new
    evidence followed by the old timeline. *)
Theorem latest_evidence_comes_first
  (engine : Engine) (body : EvidenceCreate.t) (now : Z) (d : DB) :
  EvidenceCreate.valid body = true ->
  asset_exists (EvidenceCreate.asset_id body) d ->
  (forall e old,
     outcome (GET_asset_timeline engine (EvidenceCreate.asset_id body) d) = Ok old ->
     In e old -> TimelineEvent.timestamp e < now) ->
  exists old,
    outcome (GET_asset_timeline engine (EvidenceCreate.asset_id body) d) = Ok old
    /\ outcome
         (GET_asset_timeline engine (EvidenceCreate.asset_id body)
            (db_after (POST_evidence engine body now d)))
       = Ok (evidence_event (new_evidence body now d) :: old).
Proof.
  intros Hvalid Hex Hlater.
  destruct (timeline_after_evidence engine body now d Hvalid Hex) as (old & Hold & Hnew).
  exists old. split; [exact Hold|]. rewrite Hnew.
  rewrite filter_nothing, filter_everything; [reflexivity| |].
  - intros e He. apply Z.ltb_lt. now apply (Hlater e old).
  - intros e He. apply Z.leb_gt. now apply (Hlater e old).
Qed.

Lemma latest_evidence_comes_first_witness :
  outcome
    (GET_asset_timeline SQLite 1 (db_after (POST_evidence SQLite survey_done 300 scenario_db)))
  = Ok [ TimelineEvent.mk "evidence" 300 "Survey: land survey"
           (Some (EvidenceDetails "Survey" (-17.75)%float 31%float 2))
       ; TimelineEvent.mk "evidence" 200 "Photo: fence built"
           (Some (EvidenceDetails "Photo" (-17.75)%float 31%float 1))
       ; TimelineEvent.mk "version" 100 "Genesis Creation"
           (Some (VersionDetails "Plot A" "Owner X" 1)) ].
Proof.
  destruct (latest_evidence_comes_first SQLite survey_done 300 scenario_db eq_refl
              scenario_has_asset_1) as (old & Hold & Hnew).
  - intros e old Hold He. vm_compute in Hold. injection Hold as <-.
    destruct He as [<-|[<-|[]]]; vm_compute; reflexivity.
  - change (EvidenceCreate.asset_id survey_done) with 1 in Hold, Hnew.
    rewrite Hnew. vm_compute in Hold. injection Hold as <-. vm_compute. reflexivity.
Defined.

(** X13. A write that concerns one asset leaves the timeline of every other
    asset as it was: evidence logged for an asset, accepted or not, does not
    change what [get_asset_timeline] answers for another key, and creating
    an asset, accepted or not, does not change what it answers for the key
    of an asset stored before. *)
Theorem other_timelines_untouched
  (engine : Engine) (asset : AssetCreate.t) (body : EvidenceCreate.t)
  (t1 t2 now asset_id : Z) (d : DB) :
  (asset_id <> EvidenceCreate.asset_id body ->
   outcome (GET_asset_timeline engine asset_id (db_after (POST_evidence engine body now d)))
   = outcome (GET_asset_timeline engine asset_id d))
  /\ (asset_exists asset_id d ->
      outcome (GET_asset_timeline engine asset_id (db_after (POST_assets asset t1 t2 d)))
      = outcome (GET_asset_timeline engine asset_id d)).
Proof.
  split.
  - intros Hother. unfold POST_evidence.
    destruct (EvidenceCreate.valid body); [|reflexivity].
    destruct (has_asset (EvidenceCreate.asset_id body) d) eqn:Hhas.
    + apply has_asset_exists in Hhas. rewrite (create_evidence_runs engine _ now _ Hhas).
      cbn [db_after fst snd]. rewrite !get_asset_timeline_value.
      unfold versions_of, evidence_of. cbn [assets asset_versions evidence].
      rewrite filter_app. cbn [filter new_evidence Evidence.asset_id].
      replace (EvidenceCreate.asset_id body =? asset_id) with false
        by (symmetry; apply Z.eqb_neq; congruence).
      now rewrite app_nil_r.
    + apply has_asset_missing in Hhas. now rewrite create_evidence_missing.
  - intros Hex. unfold POST_assets.
    destruct (AssetCreate.valid asset); [|reflexivity].
    rewrite create_asset_runs. cbn [db_after fst snd].
    assert (Hfresh : (next_id (map Asset.id (assets d)) =? asset_id) = false).
    { apply Z.eqb_neq. intros Heq. destruct Hex as (a & Hin & Hid).
      apply (next_id_fresh (map Asset.id (assets d))). rewrite Heq, <- Hid.
      now apply in_map. }
    rewrite !get_asset_timeline_value.
    unfold versions_of, evidence_of. cbn [assets asset_versions evidence].
    destruct (lookup_present _ _ Hex) as (a & Hfind).
    rewrite (first_filter_app _ _ _ _ Hfind), Hfind.
    rewrite filter_app. cbn [filter genesis_of AssetVersion.asset_id].
    rewrite Hfresh. now rewrite app_nil_r.
Qed.

Lemma other_timelines_untouched_witness :
  outcome
    (GET_asset_timeline SQLite 1
       (db_after (POST_evidence SQLite evidence_for_asset_99999 300 scenario_db)))
  = outcome (GET_asset_timeline SQLite 1 scenario_db)
  /\ outcome (GET_asset_timeline SQLite 1 (db_after (POST_assets plot_a 300 300 scenario_db)))
     = outcome (GET_asset_timeline SQLite 1 scenario_db).
Proof.
  destruct (other_timelines_untouched SQLite plot_a evidence_for_asset_99999 300 300 300 1
              scenario_db)
    as [Hevidence Hasset].
  split; [apply Hevidence; discriminate|apply Hasset; apply scenario_has_asset_1].
Defined.

Lemma nothing_for_next_asset (engine : Engine) (ops : list Op) :
  let d := run engine ops empty_db in
  versions_of (next_id (map Asset.id (assets d))) d = []
  /\ evidence_of (next_id (map Asset.id (assets d))) d = [].
Proof.
  intros d. split; apply filter_nothing; intros x Hx; apply Z.eqb_neq; intros Heq.
  - apply (new_asset_fresh plot_a 0 d). cbn [new_asset Asset.id]. rewrite <- Heq.
    now apply (versions_have_asset _ (well_formed_reached engine ops)).
  - apply (new_asset_fresh plot_a 0 d). cbn [new_asset Asset.id]. rewrite <- Heq.
    pose proof (evidence_has_asset _ (registry_invariant_reached engine ops)) as Hfk.
    rewrite Forall_forall in Hfk. now apply Hfk.
Qed.

(** X14. Right after a valid [create_asset], on a database reached by any
    sequence of requests, the timeline of the new asset is its genesis event
    and nothing else. *)
Theorem new_asset_timeline_is_genesis
  (engine : Engine) (ops : list Op) (asset : AssetCreate.t) (t1 t2 : Z) :
  AssetCreate.valid asset = true ->
  let d := run engine ops empty_db in
  outcome
    (GET_asset_timeline engine (Asset.id (new_asset asset t1 d))
       (db_after (POST_assets asset t1 t2 d)))
  = Ok [ TimelineEvent.mk "version" t2 "Genesis Creation"
           (Some (VersionDetails (AssetCreate.name asset) (AssetCreate.owner asset)
                    (next_id (map AssetVersion.id (asset_versions d))))) ].
Proof.
  intros Hvalid d. unfold POST_assets. rewrite Hvalid, create_asset_runs.
  cbn [db_after fst snd new_asset Asset.id].
  destruct (nothing_for_next_asset engine ops) as [Hversions Hevidence]. fold d in Hversions, Hevidence.
  rewrite get_asset_timeline_value. unfold versions_of, evidence_of in *.
  cbn [assets asset_versions evidence].
  rewrite first_filter_last.
  - rewrite filter_app, Hversions, Hevidence.
    cbn [filter genesis_of AssetVersion.asset_id]. rewrite Z.eqb_refl. reflexivity.
  - intros r Hr. apply id_not_next. now apply in_map.
  - apply Z.eqb_refl.
Qed.

Lemma new_asset_timeline_is_genesis_witness :
  outcome (GET_asset_timeline SQLite 2 (db_after (POST_assets plot_a 300 301 scenario_db)))
  = Ok [ TimelineEvent.mk "version" 301 "Genesis Creation"
           (Some (VersionDetails "Plot A" "Owner X" 2)) ].
Proof.
  apply (new_asset_timeline_is_genesis SQLite
           [OpCreateAsset plot_a 100 100; OpLogEvidence fence_built 200] plot_a 300 301).
  vm_compute. reflexivity.
Defined.

Lemma filter_permutation {A : Type} (p : A -> bool) (l l' : list A) :
  Permutation l l' -> Permutation (filter p l) (filter p l').
Proof.
  induction 1 as [|x l l' _ IH|x y l|l l' l'' _ IH _ IH']; simpl.
  - constructor.
  - destruct (p x); [now constructor|exact IH].
  - destruct (p x), (p y); try reflexivity. apply perm_swap.
  - now transitivity (filter p l').
Qed.

Lemma events_of_type_version (vs : list AssetVersion.t) (es : list Evidence.t) :
  events_of_type "version" (map version_event vs ++ map evidence_event es)
  = map version_event vs.
Proof.
  unfold events_of_type. rewrite filter_app.
  rewrite filter_everything, filter_nothing; [apply app_nil_r| |].
  - intros e He. apply in_map_iff in He. destruct He as (x & <- & _). reflexivity.
  - intros e He. apply in_map_iff in He. destruct He as (x & <- & _). reflexivity.
Qed.

(** X15. After any sequence of requests the timeline of a stored asset is
    never empty: it holds exactly one version event, the genesis of the
    asset, and one event for each of its evidence rows. *)
Theorem timeline_has_one_genesis (engine : Engine) (ops : list Op) (a : Asset.t) :
  In a (assets (run engine ops empty_db)) ->
  exists v timeline,
    outcome (GET_asset_timeline engine (Asset.id a) (run engine ops empty_db)) = Ok timeline
    /\ genesis_for a v
    /\ events_of_type "version" timeline = [version_event v]
    /\ List.length timeline
       = S (List.length (evidence_of (Asset.id a) (run engine ops empty_db))).
Proof.
  intros Hin. set (d := run engine ops empty_db) in *.
  destruct (Forall2_partner _ _ _ a (genesis_pairs _ (registry_invariant_reached engine ops)) Hin)
    as (v & Hv & Hgen). fold d in Hv.
  assert (Hversions : versions_of (Asset.id a) d = [v]).
  { destruct Hgen as (<- & _). apply single_version; [|exact Hv].
    apply one_version_per_asset, well_formed_reached. }
  exists v. eexists. split; [|split; [exact Hgen|]].
  - rewrite get_asset_timeline_runs by (now exists a). reflexivity.
  - rewrite Hversions. split.
    + assert (Hperm :
        Permutation
          (events_of_type "version"
             (list_sort TimelineEvent.timestamp true
                (map version_event [v]
                 ++ map evidence_event (evidence_of (Asset.id a) d))))
          (events_of_type "version"
             (map version_event [v]
              ++ map evidence_event (evidence_of (Asset.id a) d)))).
      { unfold events_of_type. apply filter_permutation, list_sort_reverse_permutation. }
      rewrite events_of_type_version in Hperm. symmetry in Hperm.
      now apply Permutation_length_1_inv in Hperm.
    + rewrite (Permutation_length (list_sort_reverse_permutation _ _)).
      rewrite length_app, !length_map. reflexivity.
Qed.

Lemma timeline_has_one_genesis_witness :
  exists v timeline,
    outcome (GET_asset_timeline SQLite 1 scenario_db) = Ok timeline
    /\ events_of_type "version" timeline = [version_event v]
    /\ List.length timeline = 2%nat.
Proof.
  destruct (timeline_has_one_genesis SQLite
              [OpCreateAsset plot_a 100 100; OpLogEvidence fence_built 200]
              (Asset.mk 1 "Plot A" "Owner X" (-17.75)%float 31%float 5%float 100))
    as (v & timeline & Hrun & _ & Hone & Hlen).
  - left. reflexivity.
  - exists v, timeline. repeat split; assumption.
Defined.

(** ** Pages *)

Lemma page_value {A : Type} (engine : Engine) (table : DB -> list A) (skip limit : Z) (d : DB) :
  0 <= skip < 2 ^ 63 -> 0 <= limit < 2 ^ 63 ->
  outcome (request (query_page engine table skip limit) d)
  = Ok (firstn (Z.to_nat limit) (skipn (Z.to_nat skip) (table d))).
Proof.
  intros Hskip Hlimit. unfold request, query_page, outcome. cbn [txn].
  rewrite (offset_limit_within engine _ _ _ Hskip Hlimit). reflexivity.
Qed.

Lemma keys_1_to_grow (n : nat) : StronglySorted Z.lt (keys_1_to n).
Proof.
  induction n as [|n IH]; [constructor|].
  rewrite keys_1_to_S. apply StronglySorted_snoc; [exact IH|].
  apply Forall_forall. intros k Hk. unfold keys_1_to in Hk.
  apply in_map_iff in Hk. destruct Hk as (i & <- & Hi). apply in_seq in Hi. lia.
Qed.

(** X16. [get_all_evidence] checks neither argument: it never fails with
    ValidationError. When neither is negative and both lie within 64 bits it
    answers, after any sequence of requests, the evidence rows that follow
    the first [skip] of the table, [limit] of them at most, across all
    assets, in storage order, which is the order of their keys. *)
Theorem list_evidence_page (engine : Engine) (ops : list Op) (skip limit : Z) :
  let d := run engine ops empty_db in
  outcome (GET_evidence engine skip limit d) <> Err ValidationError
  /\ (0 <= skip < 2 ^ 63 -> 0 <= limit < 2 ^ 63 ->
      exists page,
        outcome (GET_evidence engine skip limit d) = Ok page
        /\ page = firstn (Z.to_nat limit) (skipn (Z.to_nat skip) (evidence d))
        /\ StronglySorted Z.lt (map Evidence.id page)).
Proof.
  intros d. split.
  - unfold GET_evidence, get_all_evidence, request, query_page, outcome. cbn [txn].
    destruct (offset_limit engine skip limit (evidence d)); simpl; discriminate.
  - intros Hskip Hlimit. eexists. split; [|split; [reflexivity|]].
    + unfold GET_evidence, get_all_evidence. now apply page_value.
    + rewrite <- firstn_map, <- skipn_map. apply StronglySorted_segment.
      subst d. rewrite (evidence_keys _ (registry_invariant_reached engine ops)).
      apply keys_1_to_grow.
Qed.

Lemma bounds_0 : 0 <= 0 < 2 ^ 63.
Proof. split; [lia|reflexivity]. Qed.

Lemma bounds_100 : 0 <= 100 < 2 ^ 63.
Proof. split; [lia|reflexivity]. Qed.

Lemma list_evidence_page_witness :
  exists page,
    outcome (GET_evidence PostgreSQL 0 100 tied_db) = Ok page
    /\ map Evidence.id page = [1; 2].
Proof.
  pose proof (list_evidence_page PostgreSQL
                [OpCreateAsset plot_a 100 100; OpLogEvidence fence_built 100;
                 OpLogEvidence survey_done 100] 0 100) as H.
  cbv zeta in H. destruct H as (_ & H).
  destruct (H bounds_0 bounds_100) as (page & Hout & Hpage & _).
  exists page. split; [exact Hout|]. rewrite Hpage. vm_compute. reflexivity.
Defined.

Lemma firstn_add {A : Type} (n m : nat) (l : list A) :
  firstn (n + m) l = firstn n l ++ firstn m (skipn n l).
Proof.
  revert l. induction n as [|n IH]; intros l; [reflexivity|].
  destruct l as [|x l]; simpl; [now rewrite firstn_nil|]. now rewrite IH.
Qed.

(** X17. Walking a listing page by page loses and repeats nothing: for an
    offset and two limits that are not negative, with the offset plus the
    first limit and the two limits together within 64 bits, the page of the
    first limit followed by the page that starts where it ends is the page
    of the two limits together. This holds of the assets and of the
    evidence. *)
Theorem pages_join (engine : Engine) (skip limit limit' : Z) (d : DB) :
  0 <= skip -> 0 <= limit -> 0 <= limit' ->
  skip + limit < 2 ^ 63 -> limit + limit' < 2 ^ 63 ->
  (exists page page',
     outcome (GET_assets engine skip limit d) = Ok page
     /\ outcome (GET_assets engine (skip + limit) limit' d) = Ok page'
     /\ outcome (GET_assets engine skip (limit + limit') d) = Ok (page ++ page'))
  /\ (exists page page',
        outcome (GET_evidence engine skip limit d) = Ok page
        /\ outcome (GET_evidence engine (skip + limit) limit' d) = Ok page'
        /\ outcome (GET_evidence engine skip (limit + limit') d) = Ok (page ++ page')).
Proof.
  intros Hskip Hlimit Hlimit' Hend Hboth.
  split; do 2 eexists;
    unfold GET_assets, get_assets, GET_evidence, get_all_evidence;
    rewrite !page_value by lia;
    (split; [reflexivity|split; [reflexivity|]]);
    rewrite !Z2Nat.inj_add by lia;
    rewrite firstn_add, skipn_skipn, (Nat.add_comm (Z.to_nat limit)); reflexivity.
Qed.

Lemma pages_join_witness :
  exists page page',
    outcome (GET_evidence SQLite 0 1 tied_db) = Ok page
    /\ outcome (GET_evidence SQLite 1 5 tied_db) = Ok page'
    /\ outcome (GET_evidence SQLite 0 6 tied_db) = Ok (page ++ page').
Proof.
  destruct (pages_join SQLite 0 1 5 tied_db ltac:(lia) ltac:(lia) ltac:(lia)
              eq_refl eq_refl) as [_ H].
  exact H.
Defined.

(** X18. A listing asked for without parameters answers the first 100 rows
    of the table, all of them when there are no more than 100. An offset at
    or past the end of the table, within 64 bits, gives the empty list, and
    not a failure. *)
Theorem pages_at_the_edges (engine : Engine) (skip limit : Z) (d : DB) :
  outcome (GET_assets_query engine None None d) = Ok (firstn 100 (assets d))
  /\ outcome (GET_evidence_query engine None None d) = Ok (firstn 100 (evidence d))
  /\ ((List.length (assets d) <= 100)%nat ->
      outcome (GET_assets_query engine None None d) = Ok (assets d))
  /\ (Z.of_nat (List.length (assets d)) <= skip < 2 ^ 63 -> 0 <= limit < 2 ^ 63 ->
      outcome (GET_assets engine skip limit d) = Ok []).
Proof.
  unfold GET_assets_query, GET_evidence_query, GET_assets, GET_evidence, get_assets,
    get_all_evidence, or_default.
  split; [|split; [|split]].
  - rewrite page_value by (apply bounds_0 || apply bounds_100). reflexivity.
  - rewrite page_value by (apply bounds_0 || apply bounds_100). reflexivity.
  - intros Hfew. rewrite page_value by (apply bounds_0 || apply bounds_100).
    change (Z.to_nat 100) with 100%nat. change (Z.to_nat 0) with 0%nat. cbn [skipn].
    now rewrite firstn_all2.
  - intros Hpast Hlimit. rewrite page_value by lia.
    rewrite skipn_all2 by lia. now rewrite firstn_nil.
Qed.

Lemma pages_at_the_edges_witness :
  outcome (GET_assets_query SQLite None None scenario_db) = Ok (assets scenario_db)
  /\ outcome (GET_assets SQLite 1 10 scenario_db) = Ok [].
Proof.
  destruct (pages_at_the_edges SQLite 1 10 scenario_db) as (_ & _ & Hall & Hpast).
  split; [apply Hall|apply Hpast].
  - vm_compute. lia.
  - split; [vm_compute; discriminate|reflexivity].
  - split; [lia|reflexivity].
Defined.

(** ** The seed script *)

Lemma wait_attempts_seq (probe : nat -> option Z) (len start : nat) (slept : Z) :
  (exists k,
     (start <= k < start + len)%nat
     /\ probe k = Some 200
     /\ (forall j, (start <= j < k)%nat -> probe j <> Some 200)
     /\ seed_data.wait_attempts probe (seq start len) slept
        = (true, slept + seed_data.RETRY_DELAY * Z.of_nat (k - start)))
  \/ ((forall k, (start <= k < start + len)%nat -> probe k <> Some 200)
      /\ seed_data.wait_attempts probe (seq start len) slept
         = (false, slept + seed_data.RETRY_DELAY * Z.of_nat len)).
Proof.
  unfold seed_data.RETRY_DELAY.
  revert start slept. induction len as [|len IH]; intros start slept.
  - right. split; [intros k Hk; lia|]. simpl. f_equal. lia.
  - cbn [seq seed_data.wait_attempts].
    assert (Hnext :
      probe start <> Some 200 ->
      (exists k,
         (start <= k < start + S len)%nat
         /\ probe k = Some 200
         /\ (forall j, (start <= j < k)%nat -> probe j <> Some 200)
         /\ seed_data.wait_attempts probe (seq (S start) len) (slept + 2)
            = (true, slept + 2 * Z.of_nat (k - start)))
      \/ ((forall k, (start <= k < start + S len)%nat -> probe k <> Some 200)
          /\ seed_data.wait_attempts probe (seq (S start) len) (slept + 2)
             = (false, slept + 2 * Z.of_nat (S len)))).
    { intros Hstart.
      destruct (IH (S start) (slept + 2)) as [(k & Hk & Hok & Hbefore & Hrun)|(Hnone & Hrun)].
      - left. exists k. split; [lia|]. split; [exact Hok|]. split.
        + intros j Hj. destruct (Nat.eq_dec j start) as [->|Hne]; [exact Hstart|].
          apply Hbefore. lia.
        + rewrite Hrun. f_equal. lia.
      - right. split.
        + intros k Hk. destruct (Nat.eq_dec k start) as [->|Hne]; [exact Hstart|].
          apply Hnone. lia.
        + rewrite Hrun. f_equal. lia. }
    unfold seed_data.RETRY_DELAY.
    destruct (probe start) as [status_code|] eqn:Hprobe.
    + destruct (status_code =? 200) eqn:Hcode.
      * apply Z.eqb_eq in Hcode. subst status_code. left. exists start.
        split; [lia|]. split; [exact Hprobe|]. split; [intros j Hj; lia|].
        f_equal. rewrite Nat.sub_diag. lia.
      * apply Hnext. intros Heq. injection Heq as ->. discriminate Hcode.
    + apply Hnext. discriminate.
Qed.

Lemma wait_for_api_cases (probe : nat -> option Z) :
  (exists k,
     (k < 30)%nat
     /\ probe k = Some 200
     /\ (forall j, (j < k)%nat -> probe j <> Some 200)
     /\ seed_data.wait_for_api probe = (true, 2 * Z.of_nat k))
  \/ ((forall k, (k < 30)%nat -> probe k <> Some 200)
      /\ seed_data.wait_for_api probe = (false, 60)).
Proof.
  unfold seed_data.wait_for_api, seed_data.MAX_RETRIES.
  destruct (wait_attempts_seq probe 30 0 0) as [(k & Hk & Hok & Hbefore & Hrun)|(Hnone & Hrun)].
  - left. exists k. split; [lia|]. split; [exact Hok|]. split.
    + intros j Hj. apply Hbefore. lia.
    + rewrite Hrun. unfold seed_data.RETRY_DELAY. f_equal. lia.
  - right. split; [intros k Hk; apply Hnone; lia|]. rewrite Hrun. reflexivity.
Qed.


(** X19. [wait_for_api] probes the server 30 times at most. It answers True
    at the first probe that gets the status 200, having slept 2 seconds after
    each probe before it; when none of the 30 probes gets a 200, an
    exception or another status counting as none, it answers False, having
    slept 60 seconds, the last sleep coming after the last probe. *)
Theorem wait_for_api_verdict (probe : nat -> option Z) :
  (exists k,
     (k < 30)%nat
     /\ probe k = Some 200
     /\ (forall j, (j < k)%nat -> probe j <> Some 200)
     /\ seed_data.wait_for_api probe = (true, 2 * Z.of_nat k))
  \/ ((forall k, (k < 30)%nat -> probe k <> Some 200)
      /\ seed_data.wait_for_api probe = (false, 60)).
Proof. exact (wait_for_api_cases probe). Qed.

Lemma seed_create_asset_ok (now : nat -> Z) (name owner : string) (lat lon size : float)
  (d : DB) (n : nat) :
  AssetCreate.valid (AssetCreate.mk name owner lat lon size) = true ->
  json_number size = true ->
  seed_data.create_asset now name owner lat lon size (d, n)
  = (Ok (next_id (map Asset.id (assets d))),
     (mkDB
        (assets d
         ++ [Asset.mk (next_id (map Asset.id (assets d))) name owner lat lon size (now n)])
        (asset_versions d
         ++ [AssetVersion.mk (next_id (map AssetVersion.id (asset_versions d)))
               (next_id (map Asset.id (assets d))) name owner "Genesis Creation"
               (now (S n))])
        (evidence d),
      S (S n))).
Proof.
  intros Hvalid Hsize. unfold seed_data.create_asset, POST_assets. cbn [fst snd].
  rewrite Hvalid, create_asset_runs. cbn [outcome db_after fst snd].
  unfold renders_Asset.
  cbn [new_asset AssetCreate.location_lat AssetCreate.location_lon
       AssetCreate.size_hectares AssetCreate.name AssetCreate.owner
       Asset.location_lat Asset.location_lon Asset.size_hectares Asset.id].
  destruct (valid_asset_coordinates _ Hvalid) as [Hlat Hlon].
  cbn [AssetCreate.location_lat AssetCreate.location_lon] in Hlat, Hlon.
  rewrite Hlat, Hlon, Hsize. reflexivity.
Qed.

Lemma seed_log_evidence_ok (engine : Engine) (now : nat -> Z) (asset_id : Z)
  (evidence_type description : string) (lat lon : float) (d : DB) (n : nat) :
  0 < asset_id ->
  EvidenceCreate.valid (EvidenceCreate.mk 1 evidence_type description lat lon) = true ->
  asset_exists asset_id d ->
  seed_data.log_evidence engine now asset_id evidence_type description lat lon (d, n)
  = (Ok (next_id (map Evidence.id (evidence d))),
     (mkDB (assets d) (asset_versions d)
        (evidence d
         ++ [Evidence.mk (next_id (map Evidence.id (evidence d))) asset_id evidence_type
               description lat lon (now n)]),
      S n)).
Proof.
  intros Hid Hvalid Hex. unfold seed_data.log_evidence, POST_evidence. cbn [fst snd].
  assert (Hbody : EvidenceCreate.valid
                    (EvidenceCreate.mk asset_id evidence_type description lat lon) = true).
  { revert Hvalid. unfold EvidenceCreate.valid. cbn.
    apply Z.ltb_lt in Hid. rewrite Hid. auto. }
  rewrite Hbody, create_evidence_runs by exact Hex. cbn [outcome db_after fst snd].
  rewrite (valid_evidence_renders _ _ _ Hbody). reflexivity.
Qed.

Lemma last_asset_exists (a : Asset.t) (rows : list Asset.t) vs es :
  asset_exists (Asset.id a) (mkDB (rows ++ [a]) vs es).
Proof. exists a. split; [|reflexivity]. cbn [assets]. apply in_or_app. right. now left. Qed.

Ltac seed_asset :=
  rewrite seed_create_asset_ok by (vm_compute; reflexivity);
  cbv beta iota; cbn [assets asset_versions evidence].

Ltac seed_evidence :=
  rewrite seed_log_evidence_ok;
  [ cbv beta iota; cbn [assets asset_versions evidence]
  | apply next_id_positive
  | vm_compute; reflexivity
  | match goal with
    | |- asset_exists ?k (mkDB (?rows ++ [?a]) ?vs ?es) =>
        exact (last_asset_exists a rows vs es)
    end ].

Lemma seed_data_runs (engine : Engine) (now : nat -> Z) (d : DB) (n : nat) :
  exists a1 a2 a3 vs es d',
    seed_data.seed_data engine now (d, n) = (Ok tt, (d', (17 + n)%nat))
    /\ assets d' = assets d ++ [a1; a2; a3]
    /\ map Asset.name [a1; a2; a3]
       = ["Mashonaland Plot 4"; "Harare Warehouse District"; "Manicaland Orchard Estate"]
    /\ asset_versions d' = asset_versions d ++ vs
    /\ map AssetVersion.asset_id vs = map Asset.id [a1; a2; a3]
    /\ map AssetVersion.change_reason vs
       = ["Genesis Creation"; "Genesis Creation"; "Genesis Creation"]
    /\ evidence d' = evidence d ++ es
    /\ map Evidence.asset_id es
       = [ Asset.id a1; Asset.id a1; Asset.id a1; Asset.id a1
         ; Asset.id a2; Asset.id a2; Asset.id a2
         ; Asset.id a3; Asset.id a3; Asset.id a3; Asset.id a3 ].
Proof.
  do 6 eexists. split.
  - unfold seed_data.seed_data, seed_data.and_then.
    seed_asset. do 4 seed_evidence.
    seed_asset. do 3 seed_evidence.
    seed_asset. do 4 seed_evidence.
    reflexivity.
  - cbn [assets asset_versions evidence]. rewrite <- !app_assoc. cbn [app].
    repeat split.
Qed.

(** X20. Run against any database, with any clock, the seeding meets no
    failure: its three creations and eleven evidence requests are all
    accepted. It appends three assets, with the names of the script, one
    genesis version for each, and the evidence rows, four for the first
    asset, three for the second and four for the third, each carrying the
    key the server gave the asset. Run again, it adds them again. *)
Theorem seeding_adds_three_assets (engine : Engine) (now : nat -> Z) (d : DB) (n : nat) :
  exists a1 a2 a3 vs es d',
    seed_data.seed_data engine now (d, n) = (Ok tt, (d', (17 + n)%nat))
    /\ assets d' = assets d ++ [a1; a2; a3]
    /\ map Asset.name [a1; a2; a3]
       = ["Mashonaland Plot 4"; "Harare Warehouse District"; "Manicaland Orchard Estate"]
    /\ asset_versions d' = asset_versions d ++ vs
    /\ map AssetVersion.asset_id vs = map Asset.id [a1; a2; a3]
    /\ map AssetVersion.change_reason vs
       = ["Genesis Creation"; "Genesis Creation"; "Genesis Creation"]
    /\ evidence d' = evidence d ++ es
    /\ map Evidence.asset_id es
       = [ Asset.id a1; Asset.id a1; Asset.id a1; Asset.id a1
         ; Asset.id a2; Asset.id a2; Asset.id a2
         ; Asset.id a3; Asset.id a3; Asset.id a3; Asset.id a3 ].
Proof. exact (seed_data_runs engine now d n). Qed.

(** X21. The script exits with 1 and leaves the database as it is when none
    of its 30 probes gets the status 200. When one does, it seeds and exits
    with 0, the database holding three more assets and eleven more evidence
    rows than before. *)
Theorem seed_main_exit
  (engine : Engine) (probe : nat -> option Z) (now : nat -> Z) (d : DB) :
  ((forall k, (k < 30)%nat -> probe k <> Some 200) ->
   seed_data.main engine probe now d = (1, d))
  /\ ((exists k, (k < 30)%nat /\ probe k = Some 200) ->
      exists d',
        seed_data.main engine probe now d = (0, d')
        /\ List.length (assets d') = (List.length (assets d) + 3)%nat
        /\ List.length (evidence d') = (List.length (evidence d) + 11)%nat).
Proof.
  unfold seed_data.main.
  destruct (wait_for_api_cases probe) as [(k & Hk & Hok & _ & ->)|(Hnone & ->)]; cbn [fst].
  - split.
    + intros Hnone. exfalso. now apply (Hnone k).
    + intros _.
      destruct (seed_data_runs engine now d 0)
        as (a1 & a2 & a3 & vs & es & d' & -> & Ha & _ & _ & _ & _ & He & Hes).
      exists d'. split; [reflexivity|]. rewrite Ha, He, !length_app.
      apply (f_equal (@List.length Z)) in Hes. rewrite length_map in Hes. rewrite Hes.
      split; reflexivity.
  - split; [reflexivity|]. intros (k & Hk & Hok). exfalso. now apply (Hnone k).
Qed.

Lemma seed_main_exit_witness :
  seed_data.main SQLite (fun _ => None) (fun n => Z.of_nat n) scenario_db
  = (1, scenario_db)
  /\ exists d',
       seed_data.main SQLite (fun k => if (k =? 2)%nat then Some 200 else Some 503)
         (fun n => Z.of_nat n) scenario_db = (0, d')
       /\ List.length (assets d') = 4%nat
       /\ List.length (evidence d') = 12%nat.
Proof.
  split.
  - apply (seed_main_exit SQLite (fun _ => None) (fun n => Z.of_nat n) scenario_db).
    intros k _. discriminate.
  - apply (seed_main_exit SQLite (fun k => if (k =? 2)%nat then Some 200 else Some 503)
             (fun n => Z.of_nat n) scenario_db).
    exists 2%nat. split; [lia|reflexivity].
Defined.

Lemma rows_refer_to_stored_assets_witness : asset_exists 1 scenario_db.
Proof.
  pose proof (rows_refer_to_stored_assets SQLite
                [OpCreateAsset plot_a 100 100; OpLogEvidence fence_built 200]) as H.
  cbv zeta in H. destruct H as [Hevidence _].
  apply (Hevidence (Evidence.mk 1 1 "Photo" "fence built" (-17.75)%float 31%float 200)).
  left. reflexivity.
Defined.
